(** * fly-test: a greeting TCP listener (src/main.c)

    The program is one C function, [main]: it reads an optional port from
    the command line, sets up a dual-stack listening socket and then serves
    connections forever.  It talks to its environment only through libc and
    system calls, so it is embedded as an interaction tree over the calls it
    makes; the operating system is an oracle that answers each call. *)

From Stdlib Require Import ZArith List String Ascii Strings.Byte Lia Bool.
From Stdlib Require Import DecimalString DecimalZ DecimalPos DecimalFacts.
From Stdlib Require Import Morphisms Setoid.
From ITree Require Import ITree ITreeFacts.
Import ListNotations.
Import ITreeNotations.
Local Open Scope string_scope.
Local Open Scope list_scope.
Local Open Scope itree_scope.
Local Open Scope Z_scope.

(** ** C integers *)

Definition INT_MIN : Z := - 2 ^ 31.
Definition INT_MAX : Z := 2 ^ 31 - 1.
Definition LONG_MIN : Z := - 2 ^ 63.
Definition LONG_MAX : Z := 2 ^ 63 - 1.

(** Conversion of an integer to [int]: the value modulo 2^32, read as a
    signed number. *)
Definition to_int (z : Z) : Z := (z + 2 ^ 31) mod 2 ^ 32 - 2 ^ 31.

(** Conversion to [uint16_t], the parameter type of [htons]. *)
Definition to_uint16 (z : Z) : Z := z mod 2 ^ 16.

(** ** <stdlib.h>: atoi

    [atoi] belongs to the C library.  ISO C defines it as
    [(int) strtol (nptr, NULL, 10)]: white space is skipped, an optional sign
    is read, then the longest run of decimal digits; with no digit the result
    is 0.  A value that does not fit is outside what ISO C defines; here it
    follows glibc, where [strtol] saturates at the bounds of [long] and the
    conversion to [int] keeps the low 32 bits. *)

Definition isspace (c : ascii) : bool :=
  let n := N_of_ascii c in
  ((9 <=? n) && (n <=? 13) || (n =? 32))%N.

Definition isdigit (c : ascii) : bool :=
  let n := N_of_ascii c in
  ((48 <=? n) && (n <=? 57))%N.

Definition digit_value (c : ascii) : Z := Z.of_N (N_of_ascii c) - 48.

Fixpoint skip_space (s : string) : string :=
  match s with
  | String c s' => if isspace c then skip_space s' else s
  | EmptyString => s
  end.

Fixpoint digits_value (acc : Z) (s : string) : Z :=
  match s with
  | String c s' =>
      if isdigit c then digits_value (10 * acc + digit_value c) s' else acc
  | EmptyString => acc
  end.

Definition strtol (s : string) : Z :=
  let v :=
    match skip_space s with
    | String "-" s' => - digits_value 0 s'
    | String "+" s' => digits_value 0 s'
    | s' => digits_value 0 s'
    end in
  Z.max LONG_MIN (Z.min LONG_MAX v).

Definition atoi (s : string) : Z := to_int (strtol s).

(** ** <netinet/in.h>: byte order and socket addresses *)

Inductive endianness := LittleEndian | BigEndian.

Definition bswap16 (x : Z) : Z :=
  Z.lor (Z.shiftl (Z.land x 255) 8) (Z.land (Z.shiftr x 8) 255).

(** [htons] takes a [uint16_t]; an [int] argument is converted first. *)
Definition htons (e : endianness) (hostshort : Z) : Z :=
  match e with
  | LittleEndian => bswap16 (to_uint16 hostshort)
  | BigEndian => to_uint16 hostshort
  end.

Definition ntohs (e : endianness) (netshort : Z) : Z :=
  match e with
  | LittleEndian => bswap16 (to_uint16 netshort)
  | BigEndian => to_uint16 netshort
  end.

Inductive sa_family := AF_INET | AF_INET6.
Inductive sock_type := SOCK_STREAM | SOCK_DGRAM.
Inductive sockopt_level := SOL_SOCKET | IPPROTO_IPV6.
Inductive sockopt_name := SO_REUSEADDR | IPV6_V6ONLY.

(** The 16 bytes of an IPv6 address. *)
Definition in6_addr := list byte.
Definition in6addr_any : in6_addr := repeat x00 16.

(** The fields of [struct sockaddr_in6] that [main] assigns; the program
    leaves [sin6_flowinfo] and [sin6_scope_id] as they are on the stack. *)
Record sockaddr_in6 := {
  sin6_family : sa_family;
  sin6_port : Z;
  sin6_addr : in6_addr
}.

Definition sizeof_int : Z := 4.
Definition sizeof_sockaddr_in6 : Z := 28.
Definition EXIT_FAILURE : Z := 1.

(** ** The calls the program makes

    [syscall] lists the descriptor calls of <sys/socket.h> and <unistd.h>
    with their arguments; each is answered by an [int].  [output] is what
    goes to the standard streams through <stdio.h>.  Strings are kept as
    they are written in the source, escapes included. *)

Inductive syscall :=
| sys_socket (domain : sa_family) (type : sock_type) (protocol : Z)
| sys_setsockopt (sockfd : Z) (level : sockopt_level) (optname : sockopt_name)
                 (optval optlen : Z)
| sys_bind (sockfd : Z) (addr : sockaddr_in6) (addrlen : Z)
| sys_listen (sockfd backlog : Z)
| sys_accept (sockfd : Z)
| sys_read (fd count : Z)
| sys_recv (sockfd len flags : Z)
| sys_write (fd : Z) (buf : list byte) (count : Z)
| sys_send (sockfd : Z) (buf : list byte) (len flags : Z)
| sys_close (fd : Z).

Inductive output :=
| out_perror (s : string)
| out_printf (format : string) (args : list Z).

Variant sysE : Type -> Type :=
| Sys (c : syscall) : sysE Z
| Out (o : output) : sysE unit
| Exit (status : Z) : sysE Empty_set.

Definition prog := itree sysE.

Definition socket (domain : sa_family) (type : sock_type) (protocol : Z) : prog Z :=
  ITree.trigger (Sys (sys_socket domain type protocol)).
Definition setsockopt (sockfd : Z) (level : sockopt_level) (optname : sockopt_name)
    (optval optlen : Z) : prog Z :=
  ITree.trigger (Sys (sys_setsockopt sockfd level optname optval optlen)).
Definition bind (sockfd : Z) (addr : sockaddr_in6) (addrlen : Z) : prog Z :=
  ITree.trigger (Sys (sys_bind sockfd addr addrlen)).
Definition listen (sockfd backlog : Z) : prog Z :=
  ITree.trigger (Sys (sys_listen sockfd backlog)).
Definition accept (sockfd : Z) : prog Z :=
  ITree.trigger (Sys (sys_accept sockfd)).
Definition write (fd : Z) (buf : list byte) (count : Z) : prog Z :=
  ITree.trigger (Sys (sys_write fd buf count)).
Definition close (fd : Z) : prog Z :=
  ITree.trigger (Sys (sys_close fd)).
Definition perror (s : string) : prog unit :=
  ITree.trigger (Out (out_perror s)).
Definition printf (format : string) (args : list Z) : prog unit :=
  ITree.trigger (Out (out_printf format args)).
Definition exit {R} (status : Z) : prog R :=
  v <- ITree.trigger (Exit status) ;; match v : Empty_set with end.

(** The array of the string literal ["hello\n"], terminator included. *)
Definition hello_literal : list byte := [x68; x65; x6c; x6c; x6f; x0a; x00].

(** ** main

    Lines 8 to 74 of src/main.c, statement by statement.  The tests keep the
    comparisons of the source: [== 0] after [socket], non-zero after
    [setsockopt], [< 0] after [bind], [listen] and [accept].  [while (1)] is
    [ITree.iter] whose body always asks for another turn; [continue] ends
    the turn early.  The statements after the loop are kept.  The peer
    address and its length, which [accept] writes through its pointer
    arguments, are never read, so the call records the descriptor only.
    The byte order of the machine is a parameter. *)

Section Program.

Variable host : endianness.

Definition main (argc : Z) (argv : list string) : prog Z :=
  let opt := 1 in
  let port := 1848 in
  let port := if argc >? 1 then atoi (nth 1 argv "") else port in
  server_fd <- socket AF_INET6 SOCK_STREAM 0 ;;
  (if server_fd =? 0
   then perror "socket failed" ;; exit EXIT_FAILURE
   else Ret tt) ;;
  r <- setsockopt server_fd SOL_SOCKET SO_REUSEADDR opt sizeof_int ;;
  (if negb (r =? 0)
   then perror "setsockopt" ;; exit EXIT_FAILURE
   else Ret tt) ;;
  let no := 0 in
  r <- setsockopt server_fd IPPROTO_IPV6 IPV6_V6ONLY no sizeof_int ;;
  (if negb (r =? 0)
   then perror "setsockopt IPV6_V6ONLY" ;; exit EXIT_FAILURE
   else Ret tt) ;;
  let address :=
    {| sin6_family := AF_INET6;
       sin6_addr := in6addr_any;
       sin6_port := htons host port |} in
  r <- bind server_fd address sizeof_sockaddr_in6 ;;
  (if r <? 0
   then perror "bind failed" ;; exit EXIT_FAILURE
   else Ret tt) ;;
  r <- listen server_fd 3 ;;
  (if r <? 0
   then perror "listen" ;; exit EXIT_FAILURE
   else Ret tt) ;;
  printf "Server listening on port %d\n" [port] ;;
  ITree.iter (R := unit) (fun _ : unit =>
    client_fd <- accept server_fd ;;
    if client_fd <? 0
    then perror "accept" ;; Ret (inl tt)
    else
      printf "Connection accepted\n" [] ;;
      write client_fd hello_literal 6 ;;
      printf "Data written\n" [] ;;
      close client_fd ;;
      printf "Connection closed\n" [] ;;
      Ret (inl tt)) tt ;;
  close server_fd ;;
  Ret 0.

End Program.

(** ** Running a program against an operating system

    A run records the calls made with their answers and what was printed.
    The operating system is an oracle: it answers a call knowing all that
    happened before.  [run] executes a bounded number of steps (one per
    call and one per loop back-edge) and gives the record so far with the
    status of the process. *)

Inductive event :=
| Called (c : syscall) (r : Z)
| Printed (o : output).

Definition trace := list event.
Definition world := trace -> syscall -> Z.

Inductive status :=
| Running
| Exited (code : Z)
| Returned (code : Z).

Fixpoint run (fuel : nat) (w : world) (h : trace) (t : prog Z) : trace * status :=
  match fuel with
  | O => (h, Running)
  | S n =>
      match observe t with
      | RetF r => (h, Returned r)
      | TauF t' => run n w h t'
      | VisF e k =>
          match e in sysE T return (T -> prog Z) -> trace * status with
          | Sys c => fun k => let r := w h c in run n w (h ++ [Called c r]) (k r)
          | Out o => fun k => run n w (h ++ [Printed o]) (k tt)
          | Exit code => fun _ => (h, Exited code)
          end k
      end
  end.

(** The program from line 57 on, as it stands in [main]: the serve loop
    and the two statements after it, for a given listening descriptor. *)
Definition serving (server_fd : Z) : prog Z :=
  ITree.iter (R := unit) (fun _ : unit =>
    client_fd <- accept server_fd ;;
    if client_fd <? 0
    then perror "accept" ;; Ret (inl tt)
    else
      printf "Connection accepted\n" [] ;;
      write client_fd hello_literal 6 ;;
      printf "Data written\n" [] ;;
      close client_fd ;;
      printf "Connection closed\n" [] ;;
      Ret (inl tt)) tt ;;
  close server_fd ;;
  Ret 0.

(** ** A summary of [main], call by call

    [boot] lists what the start of [main] (lines 14 to 55) records when it
    runs to its end against [w], and the listening descriptor when it gets
    as far as the serve loop; [iteration] does the same for one turn of the
    loop started with history [h].  They are derived from [main], not
    assumed: [run_boot] and [run_iteration] prove that [run] on [main]
    computes exactly these records, and the statements about the program
    are made on [run] and [main]. *)

Definition configured_port (argc : Z) (argv : list string) : Z :=
  if argc >? 1 then atoi (nth 1 argv "") else 1848.

Definition startup_message (port : Z) : event :=
  Printed (out_printf "Server listening on port %d\n" [port]).

Section Summary.

Variable host : endianness.
Variable w : world.

Definition boot (argc : Z) (argv : list string) : trace * option Z :=
  let port := configured_port argc argv in
  let c1 := sys_socket AF_INET6 SOCK_STREAM 0 in
  let server_fd := w [] c1 in
  let h1 := [Called c1 server_fd] in
  if server_fd =? 0 then (h1 ++ [Printed (out_perror "socket failed")], None) else
  let c2 := sys_setsockopt server_fd SOL_SOCKET SO_REUSEADDR 1 sizeof_int in
  let h2 := h1 ++ [Called c2 (w h1 c2)] in
  if negb (w h1 c2 =? 0) then (h2 ++ [Printed (out_perror "setsockopt")], None) else
  let c3 := sys_setsockopt server_fd IPPROTO_IPV6 IPV6_V6ONLY 0 sizeof_int in
  let h3 := h2 ++ [Called c3 (w h2 c3)] in
  if negb (w h2 c3 =? 0)
  then (h3 ++ [Printed (out_perror "setsockopt IPV6_V6ONLY")], None) else
  let address :=
    {| sin6_family := AF_INET6;
       sin6_port := htons host port;
       sin6_addr := in6addr_any |} in
  let c4 := sys_bind server_fd address sizeof_sockaddr_in6 in
  let h4 := h3 ++ [Called c4 (w h3 c4)] in
  if w h3 c4 <? 0 then (h4 ++ [Printed (out_perror "bind failed")], None) else
  let c5 := sys_listen server_fd 3 in
  let h5 := h4 ++ [Called c5 (w h4 c5)] in
  if w h4 c5 <? 0 then (h5 ++ [Printed (out_perror "listen")], None) else
  (h5 ++ [startup_message port], Some server_fd).

Definition iteration (server_fd : Z) (h : trace) : list event :=
  let c1 := sys_accept server_fd in
  let client_fd := w h c1 in
  let h1 := h ++ [Called c1 client_fd] in
  if client_fd <? 0 then [Called c1 client_fd; Printed (out_perror "accept")] else
  let p1 := Printed (out_printf "Connection accepted\n" []) in
  let c2 := sys_write client_fd hello_literal 6 in
  let h2 := h1 ++ [p1] in
  let p2 := Printed (out_printf "Data written\n" []) in
  let c3 := sys_close client_fd in
  let h3 := h2 ++ [Called c2 (w h2 c2); p2] in
  let p3 := Printed (out_printf "Connection closed\n" []) in
  [Called c1 client_fd; p1; Called c2 (w h2 c2); p2; Called c3 (w h3 c3); p3].

End Summary.

(** The address [main] builds for [bind] (lines 39 to 41). *)
Definition bind_address (host : endianness) (argc : Z) (argv : list string) : sockaddr_in6 :=
  {| sin6_family := AF_INET6;
     sin6_port := htons host (configured_port argc argv);
     sin6_addr := in6addr_any |}.

(** The five calls of a start-up that gets through, with the descriptor
    [sfd] of the socket and the answers of [bind] and [listen]. *)
Definition bootstrap_calls (host : endianness) (argc : Z) (argv : list string)
    (sfd r4 r5 : Z) : list event :=
  [Called (sys_socket AF_INET6 SOCK_STREAM 0) sfd;
   Called (sys_setsockopt sfd SOL_SOCKET SO_REUSEADDR 1 sizeof_int) 0;
   Called (sys_setsockopt sfd IPPROTO_IPV6 IPV6_V6ONLY 0 sizeof_int) 0;
   Called (sys_bind sfd (bind_address host argc argv) sizeof_sockaddr_in6) r4;
   Called (sys_listen sfd 3) r5].

(** ** Where a run stands

    After any number of steps a run of [main] is still in the start-up
    code, has exited from it, or is in a turn of the serve loop that began
    with history [loop_head k] for some [k]. *)

Fixpoint loop_head (w : world) (server_fd : Z) (k : nat) (h : trace) : trace :=
  match k with
  | O => h
  | S k' => loop_head w server_fd k' (h ++ iteration w server_fd h)
  end.

Section Cases.

Variable host : endianness.
Variable w : world.
Variables (argc : Z) (argv : list string).

Local Abbreviation tr0 := (fst (boot host w argc argv)).
Local Abbreviation exec fuel := (run fuel w [] (main host argc argv)).

Inductive standing (fuel : nat) : Prop :=
| starting :
    (fuel <= List.length tr0)%nat ->
    exec fuel = (firstn fuel tr0, Running) ->
    standing fuel
| exited :
    (List.length tr0 < fuel)%nat ->
    snd (boot host w argc argv) = None ->
    exec fuel = (tr0, Exited EXIT_FAILURE) ->
    standing fuel
| in_loop (sfd : Z) (k n : nat) :
    snd (boot host w argc argv) = Some sfd ->
    let h := loop_head w sfd k tr0 in
    let ev := iteration w sfd h in
    (List.length tr0 <= n <= fuel)%nat ->
    (fuel - n <= List.length ev)%nat ->
    (forall j, exec (n + j) = run j w h (serving sfd)) ->
    exec fuel = (h ++ firstn (fuel - n) ev, Running) ->
    standing fuel.

End Cases.

(** ** What the two phases record *)

Definition is_accept (e : event) : bool :=
  match e with Called (sys_accept _) _ => true | _ => false end.

Definition is_print (e : event) : bool :=
  match e with Printed _ => true | _ => false end.

(** The calls of the start-up code, and the failures among them as POSIX
    reports them: [socket], [bind] and [listen] answer -1, [setsockopt]
    anything but 0. *)
Definition is_boot_call (e : event) : bool :=
  match e with
  | Called (sys_socket _ _ _) _ | Called (sys_setsockopt _ _ _ _ _) _
  | Called (sys_bind _ _ _) _ | Called (sys_listen _ _) _ => true
  | _ => false
  end.

Definition is_boot_failure (e : event) : bool :=
  match e with
  | Called (sys_socket _ _ _) r => r <? 0
  | Called (sys_setsockopt _ _ _ _ _) r => negb (r =? 0)
  | Called (sys_bind _ _ _) r => r <? 0
  | Called (sys_listen _ _) r => r <? 0
  | _ => false
  end.

Definition is_startup_message (e : event) : bool :=
  match e with
  | Printed (out_printf "Server listening on port %d\n" _) => true
  | _ => false
  end.

Definition ends_with_print (h : trace) : Prop :=
  exists h' o, h = h' ++ [Printed o].

(** ** Arguments, connections and descriptors *)

(** The process as the C runtime starts it: [argc] counts [argv]. *)
Abbreviation start host argv := (main host (Z.of_nat (List.length argv)) argv).

(** The argument that is the decimal numeral of [z]. *)
Definition decimal (z : Z) : string := NilZero.string_of_int (Z.to_int z).

Definition starts_with_digit (s : string) : bool :=
  match s with
  | String c _ => isdigit c
  | EmptyString => false
  end.

(** No number can be read from [s]: after white space and an optional
    sign there is no digit. *)
Definition no_number (s : string) : bool :=
  match skip_space s with
  | String "-" s' => negb (starts_with_digit s')
  | String "+" s' => negb (starts_with_digit s')
  | s' => negb (starts_with_digit s')
  end.

(** What a connection gets: the records of lines 65 to 69 for the
    descriptor [c], with the answers [r1] of [write] and [r2] of [close]. *)
Definition served (c r1 r2 : Z) : list event :=
  [Printed (out_printf "Connection accepted\n" []);
   Called (sys_write c hello_literal 6) r1;
   Printed (out_printf "Data written\n" []);
   Called (sys_close c) r2;
   Printed (out_printf "Connection closed\n" [])].

(** The bytes a call of [write] hands over. *)
Definition written (buf : list byte) (count : Z) : list byte :=
  firstn (Z.to_nat count) buf.

(** Calls that move data, and the only one [main] makes. *)
Definition only_greeting (e : event) : Prop :=
  match e with
  | Called (sys_read _ _) _ | Called (sys_recv _ _ _) _
  | Called (sys_send _ _ _ _) _ => False
  | Called (sys_write _ buf count) _ => buf = hello_literal /\ count = 6
  | _ => True
  end.

(** The connections a process holds after the record [h]: the descriptors
    [accept] returned that were not yet given to [close]. *)
Definition conn_step (held : list Z) (e : event) : list Z :=
  match e with
  | Called (sys_accept _) r => if r <? 0 then held else r :: held
  | Called (sys_close fd) _ => remove Z.eq_dec fd held
  | _ => held
  end.

Definition connections (h : trace) : list Z := fold_left conn_step h [].

(** ** Operating systems to run against *)

(** The descriptor a call works on. *)
Definition fd_of (c : syscall) : option Z :=
  match c with
  | sys_socket _ _ _ => None
  | sys_setsockopt fd _ _ _ _ | sys_bind fd _ _ | sys_listen fd _
  | sys_accept fd | sys_read fd _ | sys_recv fd _ _ | sys_write fd _ _
  | sys_send fd _ _ _ | sys_close fd => Some fd
  end.

(** EBADF: a call on a negative descriptor fails with -1. *)
Definition ebadf (w : world) : Prop :=
  forall h c fd, fd_of c = Some fd -> fd < 0 -> w h c = -1.

Definition on_valid_fd (c : syscall) (r : Z) : Z :=
  match fd_of c with
  | Some fd => if fd <? 0 then -1 else r
  | None => r
  end.

(** Every call succeeds: the socket is descriptor 3, each connection is
    descriptor 4, [write] takes all it is given. *)
Definition calm : world := fun _ c =>
  on_valid_fd c
    match c with
    | sys_socket _ _ _ => 3
    | sys_accept _ => 4
    | sys_write _ _ n => n
    | _ => 0
    end.

(** The port is taken: [bind] fails. *)
Definition busy_port : world := fun h c =>
  match c with
  | sys_bind _ _ _ => -1
  | _ => calm h c
  end.

(** No descriptor is left: [socket] fails. *)
Definition no_sockets : world := fun h c =>
  match c with
  | sys_socket _ _ _ => -1
  | _ => calm h c
  end.

(** The first connection attempt is reset before [accept] returns. *)
Definition flaky : world := fun h c =>
  match c with
  | sys_accept _ => if existsb is_accept h then calm h c else -1
  | _ => calm h c
  end.

(** A process started with descriptor 0 free (standard input closed): the
    socket is descriptor 0, the lowest one free. *)
Definition stdin_closed : world := fun h c =>
  match c with
  | sys_socket _ _ _ => 0
  | _ => calm h c
  end.

(** ** Reports, start-up calls and turns *)

(** The text [main] gives [perror] after each call it checks (lines 21, 27,
    35, 45, 51 and 61). *)
Definition failure_message (c : syscall) : string :=
  match c with
  | sys_socket _ _ _ => "socket failed"
  | sys_setsockopt _ _ SO_REUSEADDR _ _ => "setsockopt"
  | sys_setsockopt _ _ IPV6_V6ONLY _ _ => "setsockopt IPV6_V6ONLY"
  | sys_bind _ _ _ => "bind failed"
  | sys_listen _ _ => "listen"
  | sys_accept _ => "accept"
  | _ => ""
  end.

(** The five calls of lines 19 to 49 in the order of the source, on the
    descriptor [sfd], with whatever each one answered. *)
Definition start_up_calls (host : endianness) (argc : Z) (argv : list string)
    (sfd r2 r3 r4 r5 : Z) : list event :=
  [Called (sys_socket AF_INET6 SOCK_STREAM 0) sfd;
   Called (sys_setsockopt sfd SOL_SOCKET SO_REUSEADDR 1 sizeof_int) r2;
   Called (sys_setsockopt sfd IPPROTO_IPV6 IPV6_V6ONLY 0 sizeof_int) r3;
   Called (sys_bind sfd (bind_address host argc argv) sizeof_sockaddr_in6) r4;
   Called (sys_listen sfd 3) r5].

(** What one complete turn of the serve loop (lines 57 to 70) records on
    the listening descriptor [sfd]: [accept] refused and reported, or a
    connection accepted and served. *)
Inductive turn (sfd : Z) : list event -> Prop :=
| turn_refused (c : Z) :
    c < 0 ->
    turn sfd [Called (sys_accept sfd) c; Printed (out_perror "accept")]
| turn_connected (c r1 r2 : Z) :
    0 <= c ->
    turn sfd (Called (sys_accept sfd) c :: served c r1 r2).

(** [k] complete turns, one after the other. *)
Inductive turns (sfd : Z) : nat -> list event -> Prop :=
| turns_none : turns sfd 0 []
| turns_more (k : nat) (t l : list event) :
    turn sfd t -> turns sfd k l -> turns sfd (S k) (t ++ l).

(** * Proofs *)

(** Every statement about the program is about [run fuel w [] (main ...)],
    for all operating systems [w] unless a hypothesis restricts them. *)

(** ** Facts about the library functions *)

Lemma digits_value_acc (d : Decimal.uint) :
  forall acc : positive,
    digits_value (Z.pos acc) (NilEmpty.string_of_uint d) = Z.pos (Pos.of_uint_acc d acc).
Proof.
  induction d; intros acc; cbn [NilEmpty.string_of_uint digits_value Pos.of_uint_acc];
    try reflexivity;
    change (isdigit _) with true; cbv iota; rewrite <- IHd; f_equal;
    match goal with
    | |- context [digit_value ?c] =>
        let v := eval vm_compute in (digit_value c) in
        change (digit_value c) with v
    end; lia.
Qed.

Lemma digits_value_uint (d : Decimal.uint) :
  digits_value 0 (NilEmpty.string_of_uint d) = Z.of_uint d.
Proof.
  unfold Z.of_uint.
  induction d; cbn [NilEmpty.string_of_uint digits_value Pos.of_uint];
    try reflexivity;
    change (isdigit _) with true; cbv iota;
    first [exact IHd | apply digits_value_acc].
Qed.

Lemma strtol_decimal (z : Z) :
  strtol (decimal z) = Z.max LONG_MIN (Z.min LONG_MAX z).
Proof.
  unfold strtol, decimal. f_equal. f_equal.
  rewrite <- (DecimalZ.of_to z) at 2.
  destruct (Z.to_int z) as [d|d]; cbn [NilZero.string_of_int Z.of_int].
  - rewrite <- digits_value_uint. destruct d; reflexivity.
  - cbn [skip_space]. change (isspace "-") with false. cbv iota.
    rewrite <- digits_value_uint. destruct d; reflexivity.
Qed.

Lemma atoi_decimal (z : Z) : INT_MIN <= z <= INT_MAX -> atoi (decimal z) = z.
Proof.
  unfold atoi, to_int, INT_MIN, INT_MAX. intros H. rewrite strtol_decimal.
  unfold LONG_MIN, LONG_MAX.
  rewrite Z.min_r, Z.max_r by lia.
  rewrite Z.mod_small by lia. lia.
Qed.

Lemma atoi_no_number (s : string) : no_number s = true -> atoi s = 0.
Proof.
  unfold no_number, atoi, strtol. intros H.
  assert (Hd : forall s', negb (starts_with_digit s') = true -> digits_value 0 s' = 0).
  { intros [|c s']; cbn; [reflexivity|]. now destruct (isdigit c). }
  destruct (skip_space s) as [|c t']; [reflexivity|].
  destruct c as [[] [] [] [] [] [] [] []]; cbv iota in H |- *;
    rewrite (Hd _ H); reflexivity.
Qed.

Lemma bswap16_bytes (y : Z) :
  0 <= y < 2 ^ 16 -> bswap16 y = y mod 2 ^ 8 * 2 ^ 8 + y / 2 ^ 8.
Proof.
  intros Hy. unfold bswap16. change 255 with (Z.ones 8).
  rewrite !Z.land_ones, Z.shiftl_mul_pow2, Z.shiftr_div_pow2 by lia.
  assert (Hdisj : Z.land (y mod 2 ^ 8 * 2 ^ 8) ((y / 2 ^ 8) mod 2 ^ 8) = 0).
  { apply Z.bits_inj'. intros n Hn. rewrite Z.land_spec, Z.bits_0.
    destruct (Z.lt_ge_cases n 8).
    - now rewrite Z.mul_pow2_bits_low.
    - rewrite Z.mod_pow2_bits_high by lia. apply andb_false_r. }
  rewrite <- Z.lxor_lor, <- Z.add_nocarry_lxor by exact Hdisj.
  f_equal. apply Z.mod_small.
  change (2 ^ 16) with 65536 in Hy. change (2 ^ 8) with 256.
  Z.div_mod_to_equations. lia.
Qed.

Lemma bswap16_twice (y : Z) :
  0 <= y < 2 ^ 16 -> bswap16 (to_uint16 (bswap16 y)) = y.
Proof.
  intros Hy. unfold to_uint16.
  assert (Hb : 0 <= bswap16 y < 2 ^ 16).
  { rewrite (bswap16_bytes y Hy).
    change (2 ^ 16) with 65536 in *. change (2 ^ 8) with 256.
    Z.div_mod_to_equations. lia. }
  rewrite (Z.mod_small _ _ Hb), (bswap16_bytes _ Hb), (bswap16_bytes y Hy).
  change (2 ^ 16) with 65536 in *. change (2 ^ 8) with 256.
  Z.div_mod_to_equations. lia.
Qed.

Lemma ntohs_htons (e : endianness) (x : Z) : ntohs e (htons e x) = x mod 2 ^ 16.
Proof.
  assert (Hr : 0 <= x mod 2 ^ 16 < 2 ^ 16) by (apply Z.mod_pos_bound; lia).
  destruct e; unfold ntohs, htons.
  - apply bswap16_twice. exact Hr.
  - unfold to_uint16. apply Z.mod_mod. lia.
Qed.

(** A few values, as the C library gives them. *)

Example atoi_8080 : atoi "8080" = 8080.
Proof. reflexivity. Qed.

Example atoi_sign_and_tail : atoi "  -12 apples" = -12.
Proof. reflexivity. Qed.

Example atoi_word : atoi "http" = 0.
Proof. reflexivity. Qed.

Example atoi_saturates : atoi "99999999999999999999" = -1.
Proof. reflexivity. Qed.

Example htons_8080 : htons LittleEndian 8080 = 36895 /\ htons BigEndian 8080 = 8080.
Proof. split; reflexivity. Qed.

Example htons_65536 : htons LittleEndian 65536 = 0.
Proof. reflexivity. Qed.

(** ** Steps of [run] *)

(** [run] looks at a tree only through [observe], so it cannot tell
    strongly bisimilar trees apart: the monad laws and the unfolding of
    [ITree.iter] may be used under it. *)
Lemma run_eq_itree (n : nat) (w : world) :
  forall (h : trace) (t1 t2 : prog Z), t1 ≅ t2 -> run n w h t1 = run n w h t2.
Proof.
  induction n as [|n IH]; intros h t1 t2 H; [reflexivity|].
  cbn [run]. apply eqit_inv in H. unfold observe.
  destruct (_observe t1) as [r1|t1'|X1 e1 k1], (_observe t2) as [r2|t2'|X2 e2 k2];
    cbn in H; try contradiction; try discriminate.
  - now subst.
  - now apply IH.
  - destruct H as [p [He Hk]]. destruct p. cbn in He, Hk. subst e2.
    destruct e1; [apply IH, Hk | apply IH, Hk | reflexivity].
Qed.

#[global] Instance run_Proper (n : nat) (w : world) (h : trace) :
  Proper (eq_itree eq ==> eq) (run n w h).
Proof. intros t1 t2 H. now apply run_eq_itree. Qed.

Lemma run_tau n w h t : run (S n) w h (Tau t) = run n w h t.
Proof. reflexivity. Qed.

Lemma run_call n w h c (k : Z -> prog Z) :
  run (S n) w h (x <- ITree.trigger (Sys c) ;; k x) =
  run n w (h ++ [Called c (w h c)]) (k (w h c)).
Proof. rewrite bind_trigger. reflexivity. Qed.

Lemma run_print n w h o (k : unit -> prog Z) :
  run (S n) w h (x <- ITree.trigger (Out o) ;; k x) =
  run n w (h ++ [Printed o]) (k tt).
Proof. rewrite bind_trigger. reflexivity. Qed.

Lemma run_exit n w h code (k : unit -> prog Z) :
  run (S n) w h (x <- exit code ;; k x) = (h, Exited code).
Proof. unfold exit. rewrite bind_bind, bind_trigger. reflexivity. Qed.

(** ** The summary is what [main] does *)

Section Summary_correct.

Variable host : endianness.
Variable w : world.

Ltac norm_prog := repeat (rewrite bind_bind || rewrite bind_ret_l).

(** One step of [run] on a program that starts with a call, a print or
    [exit]; the conditions already decided are in the context. *)
Ltac run_step :=
  norm_prog;
  first [rewrite run_call | rewrite run_print | rewrite run_exit];
  cbn [app];
  repeat match goal with
         | E : ?c = _ |- context [if ?c then _ else _] => rewrite E
         | E : ?c = _ |- context [if negb ?c then _ else _] => rewrite E
         end;
  cbn [negb]; cbv iota.

Ltac burn fuel :=
  destruct fuel as [|fuel]; [reflexivity|]; run_step; try reflexivity.

Lemma run_boot (argc : Z) (argv : list string) (fuel : nat) :
  run fuel w [] (main host argc argv) =
  let (tr, next) := boot host w argc argv in
  if (fuel <=? List.length tr)%nat then (firstn fuel tr, Running)
  else match next with
       | None => (tr, Exited EXIT_FAILURE)
       | Some server_fd =>
           run (fuel - List.length tr) w tr (serving server_fd)
       end.
Proof.
  unfold main, boot, socket, setsockopt, bind, listen, perror, printf, startup_message.
  fold (configured_port argc argv).
  set (port := configured_port argc argv).
  cbn [app].
  destruct (w [] _ =? 0) eqn:E1.
  { now do 3 burn fuel. }
  destruct (w [_] _ =? 0) eqn:E2; cbn [negb]; cycle 1.
  { now do 4 burn fuel. }
  destruct (w [_; _] _ =? 0) eqn:E3; cbn [negb]; cycle 1.
  { now do 5 burn fuel. }
  destruct (w [_; _; _] _ <? 0) eqn:E4.
  { now do 6 burn fuel. }
  destruct (w [_; _; _; _] _ <? 0) eqn:E5.
  { now do 7 burn fuel. }
  do 6 burn fuel.
  destruct fuel; reflexivity.
Qed.

Ltac burn_turn fuel :=
  destruct fuel as [|fuel];
  [cbn; rewrite <- ?List.app_assoc; rewrite ?List.app_nil_r; reflexivity|];
  norm_prog; cbv iota;
  first [rewrite run_call | rewrite run_print | rewrite bind_tau, run_tau];
  repeat match goal with
         | E : ?c = _ |- context [if ?c then _ else _] => rewrite E
         end;
  cbv iota.

Lemma run_iteration (server_fd : Z) (h : trace) (fuel : nat) :
  run fuel w h (serving server_fd) =
  let ev := iteration w server_fd h in
  if (fuel <=? List.length ev)%nat then (h ++ firstn fuel ev, Running)
  else run (fuel - S (List.length ev)) w (h ++ ev) (serving server_fd).
Proof.
  unfold serving at 1. rewrite unfold_iter.
  unfold iteration, accept, perror, printf, write, close.
  destruct (w h _ <? 0) eqn:E.
  - do 3 burn_turn fuel.
    cbn. rewrite <- ?List.app_assoc. rewrite Nat.sub_0_r. reflexivity.
  - do 7 burn_turn fuel.
    cbn. rewrite <- ?List.app_assoc. rewrite Nat.sub_0_r. reflexivity.
Qed.

End Summary_correct.

(** The first twelve steps against [calm], with port 8080. *)
Example run_calm_12 :
  run 12 calm [] (main LittleEndian 2 ["fly-test"; "8080"]) =
  (bootstrap_calls LittleEndian 2 ["fly-test"; "8080"] 3 0 0 ++
   [startup_message 8080; Called (sys_accept 3) 4] ++ served 4 6 0,
   Running).
Proof. vm_compute. reflexivity. Qed.

Lemma loop_head_ind (w : world) (sfd : Z) (P : trace -> Prop) :
  (forall h, P h -> P (h ++ iteration w sfd h)) ->
  forall k h, P h -> P (loop_head w sfd k h).
Proof.
  intros Hstep k. induction k as [|k IH]; intros h Hh; cbn; auto.
Qed.

Lemma serving_cases (w : world) (sfd : Z) (fuel : nat) :
  forall h, exists k n,
    let h' := loop_head w sfd k h in
    (n <= fuel)%nat /\
    (fuel - n <= List.length (iteration w sfd h'))%nat /\
    (forall j, run (n + j) w h (serving sfd) = run j w h' (serving sfd)).
Proof.
  induction fuel as [fuel IH] using lt_wf_ind. intros h.
  destruct (Nat.leb_spec fuel (List.length (iteration w sfd h))) as [Hle|Hgt].
  - exists O, O. cbn. repeat split; auto; lia.
  - set (ev := iteration w sfd h) in *.
    destruct (IH (fuel - S (List.length ev))%nat ltac:(lia) (h ++ ev)) as (k & n & Hn & Hm & Hrun).
    exists (S k), (S (List.length ev) + n)%nat. cbn [loop_head]. fold ev.
    repeat split; try lia.
    intros j. rewrite run_iteration. fold ev. cbv zeta.
    destruct (Nat.leb_spec (S (List.length ev) + n + j) (List.length ev)) as [Hle|_]; [lia|].
    replace (S (List.length ev) + n + j - S (List.length ev))%nat with (n + j)%nat by lia.
    apply Hrun.
Qed.

Section Cases_correct.

Variable host : endianness.
Variable w : world.
Variables (argc : Z) (argv : list string).

Local Abbreviation tr0 := (fst (boot host w argc argv)).
Local Abbreviation exec fuel := (run fuel w [] (main host argc argv)).

Lemma main_cases (fuel : nat) : standing host w argc argv fuel.
Proof.
  pose proof (run_boot host w argc argv) as Hboot.
  destruct (boot host w argc argv) as [tr next] eqn:Eb.
  cbn [fst snd] in *. cbv beta iota in Hboot.
  destruct (Nat.leb_spec fuel (List.length tr)) as [Hle|Hgt].
  - apply starting; rewrite Eb; cbn [fst]; [exact Hle|].
    rewrite Hboot. apply Nat.leb_le in Hle. now rewrite Hle.
  - assert (Hnle : (fuel <=? List.length tr)%nat = false) by now apply Nat.leb_gt.
    destruct next as [sfd|].
    + destruct (serving_cases w sfd (fuel - List.length tr) tr)
        as (k & n & Hn & Hm & Hrun).
      assert (Hexec : forall j, exec (List.length tr + n + j) =
                run j w (loop_head w sfd k tr)
                  (serving sfd)).
      { intros j. rewrite Hboot.
        destruct (Nat.leb_spec (List.length tr + n + j) (List.length tr)) as [Hj|Hj].
        - assert (n = O /\ j = O) as [-> ->] by lia.
          rewrite !Nat.add_0_r, firstn_all.
          rewrite <- (Hrun O). reflexivity.
        - replace (List.length tr + n + j - List.length tr)%nat with (n + j)%nat by lia.
          apply Hrun. }
      apply (in_loop host w argc argv fuel sfd k (List.length tr + n)); rewrite ?Eb; cbn [fst snd]; auto.
      * lia.
      * replace (fuel - (List.length tr + n))%nat with (fuel - List.length tr - n)%nat by lia.
        exact Hm.
      * replace fuel with (List.length tr + n + (fuel - List.length tr - n))%nat at 1 by lia.
        rewrite Hexec, run_iteration. cbv zeta.
        apply Nat.leb_le in Hm. rewrite Hm.
        now replace (fuel - (List.length tr + n))%nat with (fuel - List.length tr - n)%nat by lia.
    + apply exited; rewrite ?Eb; cbn [fst snd]; auto.
      now rewrite Hboot, Hnle.
Qed.

End Cases_correct.

(** ** What the two phases record *)

Lemma ends_with_print_app (h l : trace) (o : output) :
  ends_with_print (h ++ l ++ [Printed o]).
Proof. exists (h ++ l), o. apply List.app_assoc. Qed.

Lemma firstn_snoc {A} (l : list A) (i : nat) :
  (i < List.length l)%nat ->
  exists x, nth_error l i = Some x /\ firstn (S i) l = firstn i l ++ [x].
Proof.
  revert i. induction l as [|a l IH]; intros i Hi; cbn in Hi; [lia|].
  destruct i as [|i].
  - exists a. split; reflexivity.
  - destruct (IH i ltac:(lia)) as (x & Hx & Hf).
    exists x. split; [exact Hx|]. cbn [firstn app] in *. now rewrite Hf.
Qed.

Lemma firstn_snoc_inv {A} (l h pre : list A) (m : nat) (x : A) :
  (m <= List.length l)%nat ->
  h ++ firstn m l = pre ++ [x] ->
  (m = O /\ h = pre ++ [x]) \/
  (exists i, m = S i /\ pre = h ++ firstn i l /\ nth_error l i = Some x).
Proof.
  intros Hm H. destruct m as [|i].
  - left. cbn in H. rewrite List.app_nil_r in H. auto.
  - right. exists i. destruct (firstn_snoc l i ltac:(lia)) as (y & Hy & Hf).
    rewrite Hf, List.app_assoc in H. apply app_inj_tail in H as [H1 H2].
    subst. auto.
Qed.

Lemma in_firstn {A} (l : list A) (n : nat) (x : A) : In x (firstn n l) -> In x l.
Proof.
  intros H. rewrite <- (firstn_skipn n l). apply in_or_app. now left.
Qed.

Lemma existsb_none {A} (f : A -> bool) (l : list A) :
  (forall x, In x l -> f x = false) -> existsb f l = false.
Proof.
  induction l as [|a l IH]; intros H; cbn; [reflexivity|].
  rewrite (H a (or_introl eq_refl)), IH; auto. intros x Hx. apply H. now right.
Qed.

Lemma existsb_firstn_none {A} (f : A -> bool) (l : list A) (n : nat) :
  existsb f l = false -> existsb f (firstn n l) = false.
Proof.
  intros H. apply existsb_none. intros x Hx. apply in_firstn in Hx.
  destruct (f x) eqn:E; [|reflexivity].
  assert (existsb f l = true) by (apply existsb_exists; eauto). congruence.
Qed.

Lemma boot_failure_is_call (e : event) : is_boot_failure e = true -> is_boot_call e = true.
Proof. destruct e as [[] r|o]; cbn; auto. Qed.

Section Phases.

Variable host : endianness.
Variable w : world.
Variables (argc : Z) (argv : list string).

Lemma boot_events (e : event) :
  In e (fst (boot host w argc argv)) -> is_boot_call e = true \/ is_print e = true.
Proof.
  unfold boot.
  repeat match goal with |- context [if ?c then _ else _] => destruct c end;
    cbn; intros H; repeat destruct H as [<-|H]; auto; contradiction.
Qed.

Lemma boot_ends_with_print : ends_with_print (fst (boot host w argc argv)).
Proof.
  unfold boot, ends_with_print, startup_message.
  repeat match goal with |- context [if ?c then _ else _] => destruct c end;
    cbn [fst]; eauto.
Qed.

Lemma iteration_events (sfd : Z) (h : trace) (e : event) :
  In e (iteration w sfd h) ->
  is_boot_call e = false /\ is_startup_message e = false /\
  match e with
  | Called (sys_accept fd) c => fd = sfd /\ c = w h (sys_accept sfd)
  | Called (sys_write fd buf n) _ =>
      fd = w h (sys_accept sfd) /\ buf = hello_literal /\ n = 6 /\ 0 <= fd
  | Called (sys_close fd) _ => fd = w h (sys_accept sfd) /\ 0 <= fd
  | Called _ _ => False
  | Printed _ => True
  end.
Proof.
  unfold iteration. destruct (_ <? 0) eqn:E; apply Z.ltb_ge in E || clear E;
    cbn; intros H; repeat destruct H as [<-|H]; try contradiction;
    cbn; repeat split; auto.
Qed.

Lemma iteration_ends_with_print (sfd : Z) (h : trace) :
  ends_with_print h -> ends_with_print (h ++ iteration w sfd h).
Proof.
  intros _. unfold iteration.
  destruct (_ <? 0).
  - apply (ends_with_print_app h [_]).
  - apply (ends_with_print_app h [_; _; _; _; _]).
Qed.

Lemma loop_head_ends_with_print (sfd : Z) (k : nat) :
  ends_with_print (loop_head w sfd k (fst (boot host w argc argv))).
Proof.
  apply loop_head_ind; [apply iteration_ends_with_print | apply boot_ends_with_print].
Qed.

(** A run whose last record is a call of [accept] is at the first step of
    a turn of the serve loop. *)
Lemma ends_with_accept (fuel : nat) (pre : trace) (fd c : Z) :
  fst (run fuel w [] (main host argc argv)) = pre ++ [Called (sys_accept fd) c] ->
  exists n,
    fuel = S n /\
    snd (boot host w argc argv) = Some fd /\
    c = w pre (sys_accept fd) /\
    ends_with_print pre /\
    (exists k, pre = loop_head w fd k (fst (boot host w argc argv))) /\
    fst (run n w [] (main host argc argv)) = pre /\
    forall j, run (n + j) w [] (main host argc argv) =
              run j w pre (serving fd).
Proof.
  intros H.
  assert (Hboot : ~ In (Called (sys_accept fd) c) (fst (boot host w argc argv))).
  { intros Hin. apply boot_events in Hin. cbn in Hin. destruct Hin; discriminate. }
  destruct (main_cases host w argc argv fuel) as [Hle Hrun|Hgt Hnone Hrun|sfd k n Hsome h ev Hn Hm Hj Hrun];
    rewrite Hrun in H; cbn [fst] in H.
  - exfalso. apply Hboot. apply (in_firstn _ fuel). rewrite H.
    apply in_or_app. right. now left.
  - exfalso. apply Hboot. rewrite H. apply in_or_app. right. now left.
  - apply firstn_snoc_inv in H as [[Hz Hh]|(i & Hi & Hpre & Hnth)]; [|  |exact Hm].
    + exfalso. destruct (loop_head_ends_with_print sfd k) as (h' & o & Ho).
      fold h in Ho. rewrite Ho in Hh. apply app_inj_tail in Hh as [_ Hh]. discriminate.
    + assert (Hin : In (Called (sys_accept fd) c) ev) by (eapply nth_error_In; eauto).
      apply iteration_events in Hin as (_ & _ & -> & Hc).
      assert (i = O) as ->.
      { subst ev. unfold iteration in Hnth.
        destruct (_ <? 0);
          destruct i as [|[|[|[|[|[|i]]]]]]; cbn in Hnth;
          try discriminate; try reflexivity; destruct i; discriminate. }
      cbn [firstn] in Hpre. rewrite List.app_nil_r in Hpre. subst pre.
      exists n. repeat split; auto; try lia.
      * apply loop_head_ends_with_print.
      * now exists k.
      * rewrite <- (Nat.add_0_r n) at 1. rewrite Hj. reflexivity.
Qed.

End Phases.

Lemma calm_ebadf : ebadf calm.
Proof.
  intros h c fd Hc Hfd. unfold calm, on_valid_fd. rewrite Hc.
  apply Z.ltb_lt in Hfd. now rewrite Hfd.
Qed.

Lemma busy_port_ebadf : ebadf busy_port.
Proof.
  intros h c fd Hc Hfd. destruct c; try reflexivity; now apply calm_ebadf with (fd := fd).
Qed.

Lemma no_sockets_ebadf : ebadf no_sockets.
Proof.
  intros h c fd Hc Hfd. destruct c; try discriminate; now apply calm_ebadf with (fd := fd).
Qed.

(** ** Events of a run *)

Section Events.

Variable host : endianness.
Variable w : world.
Variables (argc : Z) (argv : list string).

Lemma run_event (fuel : nat) (e : event) :
  In e (fst (run fuel w [] (main host argc argv))) ->
  In e (fst (boot host w argc argv)) \/
  exists sfd h, snd (boot host w argc argv) = Some sfd /\
                In e (iteration w sfd h).
Proof.
  destruct (main_cases host w argc argv fuel)
    as [Hle Hrun|Hgt Hnone Hrun|sfd k n Hsome h ev Hn Hm Hj Hrun];
    rewrite Hrun; cbn [fst]; intros H.
  - left. eapply in_firstn; eauto.
  - now left.
  - apply in_app_or in H as [H|H].
    + revert e H. subst h.
      apply (loop_head_ind w sfd
               (fun h => forall e, In e h ->
                  In e (fst (boot host w argc argv)) \/
                  exists sfd h, snd (boot host w argc argv) = Some sfd /\
                                In e (iteration w sfd h))).
      * intros h IH e H. apply in_app_or in H as [H|H]; eauto.
      * auto.
    + right. exists sfd, h. split; [exact Hsome|]. eapply in_firstn; eauto.
Qed.

Lemma boot_bind (fd len r : Z) (a : sockaddr_in6) :
  In (Called (sys_bind fd a len) r) (fst (boot host w argc argv)) ->
  fd = w [] (sys_socket AF_INET6 SOCK_STREAM 0) /\ a = bind_address host argc argv /\
  len = sizeof_sockaddr_in6.
Proof.
  unfold boot, startup_message, bind_address.
  repeat match goal with |- context [if ?c then _ else _] => destruct c end;
    cbn; intros H; repeat destruct H as [H|H]; try discriminate; try contradiction;
    injection H as <- <- <- <-; auto.
Qed.

(** The address given to [bind]: the wildcard address and the port taken
    from the command line, as 16 bits. *)
Lemma bind_in_run (fuel : nat) (fd len r : Z) (a : sockaddr_in6) :
  In (Called (sys_bind fd a len) r) (fst (run fuel w [] (main host argc argv))) ->
  sin6_family a = AF_INET6 /\ sin6_addr a = in6addr_any /\
  ntohs host (sin6_port a) = configured_port argc argv mod 2 ^ 16.
Proof.
  intros H. apply run_event in H as [H|(sfd & h & _ & H)].
  - apply boot_bind in H as (_ & -> & _). cbn. repeat split. apply ntohs_htons.
  - apply iteration_events in H as (H & _). discriminate.
Qed.

End Events.

(** ** The port *)

(** C3, as amended.  With no argument the address given to [bind] carries
    port 1848; with a first argument that is the decimal numeral of [N],
    [0 <= N <= 65535], it carries port [N]. *)
Theorem bind_port_of_argument (host : endianness) (w : world) (fuel : nat)
    (name : string) (args : list string) (N : Z) (fd len r : Z) (a : sockaddr_in6) :
  (args = [] /\ N = 1848) \/
  (exists rest, args = decimal N :: rest /\ 0 <= N <= 65535) ->
  In (Called (sys_bind fd a len) r) (fst (run fuel w [] (start host (name :: args)))) ->
  ntohs host (sin6_port a) = N.
Proof.
  intros Hargs H. apply bind_in_run in H as (_ & _ & ->).
  unfold configured_port.
  destruct Hargs as [[-> ->]|(rest & -> & HN)].
  - reflexivity.
  - replace (Z.of_nat (List.length (name :: decimal N :: rest)) >? 1) with true
      by (symmetry; apply Z.gtb_lt; cbn [List.length]; lia).
    cbn [nth]. rewrite atoi_decimal by (unfold INT_MIN, INT_MAX; lia).
    apply Z.mod_small. lia.
Qed.

Lemma bind_port_of_argument_witness :
  let a := bind_address LittleEndian 1 ["fly-test"] in
  let b := bind_address BigEndian 2 ["fly-test"; "8080"] in
  In (Called (sys_bind 3 a 28) 0)
     (fst (run 4 calm [] (start LittleEndian ["fly-test"]))) /\
  ntohs LittleEndian (sin6_port a) = 1848 /\
  In (Called (sys_bind 3 b 28) 0)
     (fst (run 4 calm [] (start BigEndian ["fly-test"; decimal 8080]))) /\
  ntohs BigEndian (sin6_port b) = 8080.
Proof.
  intros a b.
  assert (Ha : In (Called (sys_bind 3 a 28) 0)
                  (fst (run 4 calm [] (start LittleEndian ["fly-test"]))))
    by (vm_compute; right; right; right; left; reflexivity).
  assert (Hb : In (Called (sys_bind 3 b 28) 0)
                  (fst (run 4 calm [] (start BigEndian ["fly-test"; decimal 8080]))))
    by (vm_compute; right; right; right; left; reflexivity).
  split; [exact Ha|]. split; [|split; [exact Hb|]].
  - apply (bind_port_of_argument LittleEndian calm 4 "fly-test" [] 1848 3 28 0 a);
      [left; split; reflexivity | exact Ha].
  - apply (bind_port_of_argument BigEndian calm 4 "fly-test" [decimal 8080] 8080 3 28 0 b);
      [right; exists []; split; [reflexivity|lia] | exact Hb].
Defined.

(** C3 as the specification words it fails for [N = 65536]: the address
    given to [bind] then carries port 0. *)
Lemma bind_port_65536 :
  ~ (forall fd len r a,
       In (Called (sys_bind fd a len) r)
          (fst (run 4 calm [] (start LittleEndian ["fly-test"; decimal 65536]))) ->
       ntohs LittleEndian (sin6_port a) = 65536).
Proof.
  intros H.
  specialize (H 3 28 0 (bind_address LittleEndian 2 ["fly-test"; "65536"])).
  assert (Hin : In (Called (sys_bind 3 (bind_address LittleEndian 2 ["fly-test"; "65536"]) 28) 0)
                   (fst (run 4 calm [] (start LittleEndian ["fly-test"; decimal 65536])))).
  { vm_compute. right; right; right; left. reflexivity. }
  apply H in Hin. vm_compute in Hin. discriminate.
Qed.

(** C9.  When no number can be read from the first argument, [atoi] gives 0
    and the address given to [bind] carries port 0, not 1848. *)
Theorem unparsable_argument_binds_port_0 (host : endianness) (w : world) (fuel : nat)
    (name s : string) (rest : list string) (fd len r : Z) (a : sockaddr_in6) :
  no_number s = true ->
  In (Called (sys_bind fd a len) r)
     (fst (run fuel w [] (start host (name :: s :: rest)))) ->
  atoi s = 0 /\ ntohs host (sin6_port a) = 0 /\ ntohs host (sin6_port a) <> 1848.
Proof.
  intros Hs H. apply bind_in_run in H as (_ & _ & Hp).
  assert (Hport : configured_port (Z.of_nat (List.length (name :: s :: rest)))
                    (name :: s :: rest) = 0).
  { unfold configured_port.
    replace (Z.of_nat (List.length (name :: s :: rest)) >? 1) with true
      by (symmetry; apply Z.gtb_lt; cbn [List.length]; lia).
    cbn [nth]. now apply atoi_no_number. }
  rewrite Hport in Hp. change (0 mod 2 ^ 16) with 0 in Hp.
  rewrite Hp. repeat split; auto using atoi_no_number. discriminate.
Qed.

Lemma unparsable_argument_binds_port_0_witness :
  let a := bind_address LittleEndian 2 ["fly-test"; "http"] in
  no_number "http" = true /\
  In (Called (sys_bind 3 a 28) 0)
     (fst (run 4 calm [] (start LittleEndian ["fly-test"; "http"]))) /\
  atoi "http" = 0 /\
  ntohs LittleEndian (sin6_port a) = 0 /\ ntohs LittleEndian (sin6_port a) <> 1848.
Proof.
  intros a.
  assert (Ha : In (Called (sys_bind 3 a 28) 0)
                  (fst (run 4 calm [] (start LittleEndian ["fly-test"; "http"]))))
    by (vm_compute; right; right; right; left; reflexivity).
  split; [reflexivity|]. split; [exact Ha|].
  exact (unparsable_argument_binds_port_0 LittleEndian calm 4 "fly-test" "http" []
           3 28 0 a eq_refl Ha).
Defined.

(** C10.  A first argument that is the decimal numeral of an [int] [N] is
    not checked against the range of ports: the address given to [bind]
    carries [N] modulo 2^16. *)
Theorem bind_port_modulo_65536 (host : endianness) (w : world) (fuel : nat)
    (name : string) (rest : list string) (N : Z) (fd len r : Z) (a : sockaddr_in6) :
  INT_MIN <= N <= INT_MAX ->
  In (Called (sys_bind fd a len) r)
     (fst (run fuel w [] (start host (name :: decimal N :: rest)))) ->
  ntohs host (sin6_port a) = N mod 2 ^ 16.
Proof.
  intros HN H. apply bind_in_run in H as (_ & _ & ->).
  unfold configured_port.
  replace (Z.of_nat (List.length (name :: decimal N :: rest)) >? 1) with true
    by (symmetry; apply Z.gtb_lt; cbn [List.length]; lia).
  cbn [nth]. now rewrite atoi_decimal.
Qed.

Lemma bind_port_modulo_65536_witness :
  let a := bind_address LittleEndian 2 ["fly-test"; "65536"] in
  let b := bind_address LittleEndian 2 ["fly-test"; "-1"] in
  In (Called (sys_bind 3 a 28) 0)
     (fst (run 4 calm [] (start LittleEndian ["fly-test"; decimal 65536]))) /\
  ntohs LittleEndian (sin6_port a) = 0 /\
  In (Called (sys_bind 3 b 28) 0)
     (fst (run 4 calm [] (start LittleEndian ["fly-test"; decimal (-1)]))) /\
  ntohs LittleEndian (sin6_port b) = 65535.
Proof.
  intros a b.
  assert (Ha : In (Called (sys_bind 3 a 28) 0)
                  (fst (run 4 calm [] (start LittleEndian ["fly-test"; decimal 65536]))))
    by (vm_compute; right; right; right; left; reflexivity).
  assert (Hb : In (Called (sys_bind 3 b 28) 0)
                  (fst (run 4 calm [] (start LittleEndian ["fly-test"; decimal (-1)]))))
    by (vm_compute; right; right; right; left; reflexivity).
  split; [exact Ha|]. split; [|split; [exact Hb|]].
  - apply (bind_port_modulo_65536 LittleEndian calm 4 "fly-test" [] 65536 3 28 0 a);
      [unfold INT_MIN, INT_MAX; lia | exact Ha].
  - apply (bind_port_modulo_65536 LittleEndian calm 4 "fly-test" [] (-1) 3 28 0 b);
      [unfold INT_MIN, INT_MAX; lia | exact Hb].
Defined.

(** ** One turn of the serve loop *)

Lemma turn_failed (w : world) (sfd : Z) (h : trace) :
  w h (sys_accept sfd) < 0 ->
  iteration w sfd h =
  [Called (sys_accept sfd) (w h (sys_accept sfd)); Printed (out_perror "accept")].
Proof. intros H. unfold iteration. apply Z.ltb_lt in H. now rewrite H. Qed.

Lemma turn_served (w : world) (sfd : Z) (h : trace) :
  0 <= w h (sys_accept sfd) ->
  exists r1 r2,
    iteration w sfd h =
    Called (sys_accept sfd) (w h (sys_accept sfd)) ::
    served (w h (sys_accept sfd)) r1 r2.
Proof.
  intros H. unfold iteration. apply Z.ltb_ge in H. rewrite H.
  do 2 eexists. reflexivity.
Qed.

Lemma serving_goes_on (w : world) (sfd : Z) (fuel : nat) (h : trace) :
  snd (run fuel w h (serving sfd)) = Running.
Proof.
  destruct (serving_cases w sfd fuel h) as (k & n & Hn & Hm & Hrun).
  replace fuel with (n + (fuel - n))%nat by lia.
  rewrite Hrun, run_iteration. cbv zeta.
  apply Nat.leb_le in Hm. now rewrite Hm.
Qed.

(** C2.  When [accept] has just returned a connection [c], the next five
    steps of the run are exactly: a message, [write (c, "hello\n", 6)], a
    message, [close (c)], a message.  The six bytes handed to [write] are
    68 65 6c 6c 6f 0a, and no run ever calls [read], [recv] or [send], or
    [write] with anything else. *)
Theorem accepted_connection_served (host : endianness) (w : world)
    (argc : Z) (argv : list string) (fuel : nat) (pre : trace) (fd c : Z) :
  fst (run fuel w [] (main host argc argv)) = pre ++ [Called (sys_accept fd) c] ->
  0 <= c ->
  (exists r1 r2,
     run (fuel + 5) w [] (main host argc argv) =
     (pre ++ Called (sys_accept fd) c :: served c r1 r2, Running)) /\
  written hello_literal 6 = [x68; x65; x6c; x6c; x6f; x0a] /\
  (forall fuel' e,
     In e (fst (run fuel' w [] (main host argc argv))) -> only_greeting e).
Proof.
  intros H Hc. split; [|split; [reflexivity|]].
  - apply ends_with_accept in H as (n & -> & _ & Hw & _ & _ & _ & Hrun).
    rewrite Hw in Hc. destruct (turn_served _ _ _ Hc) as (r1 & r2 & Hev).
    exists r1, r2.
    replace (S n + 5)%nat with (n + 6)%nat by lia.
    rewrite Hrun, run_iteration, Hev, Hw. reflexivity.
  - intros fuel' e He. apply run_event in He as [He|(sfd & h & _ & He)].
    + apply boot_events in He.
      destruct e as [[] r|o]; cbn in He |- *; auto; destruct He; discriminate.
    + apply iteration_events in He as (_ & _ & He).
      destruct e as [[] r|o]; cbn; auto; tauto.
Qed.

Lemma accepted_connection_served_witness :
  let p := main LittleEndian 1 ["fly-test"] in
  let pre := fst (run 6 calm [] p) in
  fst (run 7 calm [] p) = pre ++ [Called (sys_accept 3) 4] /\
  exists r1 r2,
    run 12 calm [] p = (pre ++ Called (sys_accept 3) 4 :: served 4 r1 r2, Running).
Proof.
  intros p pre.
  assert (H : fst (run 7 calm [] p) = pre ++ [Called (sys_accept 3) 4])
    by (vm_compute; reflexivity).
  split; [exact H|].
  destruct (accepted_connection_served LittleEndian calm 1 ["fly-test"] 7 pre 3 4
              H ltac:(lia)) as [Hserved _].
  exact Hserved.
Defined.

(** C4.  When [accept] has just failed, the next step reports it with
    [perror], the run goes on, and two steps later [accept] is called again
    on the same listening socket; the process never stops, and if that call
    returns a connection, the connection is served. *)
Theorem accept_failure_not_fatal (host : endianness) (w : world)
    (argc : Z) (argv : list string) (fuel : nat) (pre : trace) (fd c : Z) :
  fst (run fuel w [] (main host argc argv)) = pre ++ [Called (sys_accept fd) c] ->
  c < 0 ->
  let h := pre ++ [Called (sys_accept fd) c; Printed (out_perror "accept")] in
  let c' := w h (sys_accept fd) in
  run (fuel + 1) w [] (main host argc argv) = (h, Running) /\
  run (fuel + 3) w [] (main host argc argv) =
    (h ++ [Called (sys_accept fd) c'], Running) /\
  (forall more, snd (run (fuel + more) w [] (main host argc argv)) = Running) /\
  (0 <= c' ->
   exists r1 r2,
     run (fuel + 8) w [] (main host argc argv) =
     (h ++ Called (sys_accept fd) c' :: served c' r1 r2, Running)).
Proof.
  intros H Hc h c'.
  apply ends_with_accept in H as (n & -> & _ & Hw & _ & _ & _ & Hrun).
  rewrite Hw in Hc. pose proof (turn_failed _ _ _ Hc) as Hev. rewrite <- Hw in Hev.
  assert (Hturn : forall j, run (n + (3 + j)) w [] (main host argc argv) =
                            run j w h (serving fd)).
  { intros j. rewrite Hrun, run_iteration, Hev. cbn. now rewrite Nat.sub_0_r. }
  repeat split.
  - replace (S n + 1)%nat with (n + 2)%nat by lia.
    rewrite Hrun, run_iteration, Hev. reflexivity.
  - replace (S n + 3)%nat with (n + (3 + 1))%nat by lia.
    rewrite Hturn, run_iteration. subst c'.
    unfold iteration. destruct (_ <? 0); reflexivity.
  - intros more. replace (S n + more)%nat with (n + S more)%nat by lia.
    rewrite Hrun. apply serving_goes_on.
  - intros Hc'. destruct (turn_served _ _ _ Hc') as (r1 & r2 & Hev').
    exists r1, r2.
    replace (S n + 8)%nat with (n + (3 + 6))%nat by lia.
    rewrite Hturn, run_iteration, Hev'. reflexivity.
Qed.

Lemma accept_failure_not_fatal_witness :
  let p := main LittleEndian 1 ["fly-test"] in
  let pre := fst (run 6 flaky [] p) in
  let h := pre ++ [Called (sys_accept 3) (-1); Printed (out_perror "accept")] in
  fst (run 7 flaky [] p) = pre ++ [Called (sys_accept 3) (-1)] /\
  run 8 flaky [] p = (h, Running) /\
  run 10 flaky [] p = (h ++ [Called (sys_accept 3) 4], Running) /\
  exists r1 r2,
    run 15 flaky [] p = (h ++ Called (sys_accept 3) 4 :: served 4 r1 r2, Running).
Proof.
  intros p pre h.
  assert (H : fst (run 7 flaky [] p) = pre ++ [Called (sys_accept 3) (-1)])
    by (vm_compute; reflexivity).
  split; [exact H|].
  destruct (accept_failure_not_fatal LittleEndian flaky 1 ["fly-test"] 7 pre 3 (-1)
              H ltac:(lia)) as (H1 & H2 & _ & H3).
  split; [exact H1|]. split; [exact H2|].
  apply H3. vm_compute. discriminate.
Defined.

(** ** The start-up code *)

Section Bootstrap.

Variable host : endianness.
Variable w : world.
Variables (argc : Z) (argv : list string).

Local Abbreviation tr0 := (fst (boot host w argc argv)).
Local Abbreviation exec fuel := (run fuel w [] (main host argc argv)).

Ltac to_props :=
  repeat match goal with
         | E : (_ =? _) = true |- _ => apply Z.eqb_eq in E
         | E : (_ =? _) = false |- _ => apply Z.eqb_neq in E
         | E : (_ <? _) = true |- _ => apply Z.ltb_lt in E
         | E : (_ <? _) = false |- _ => apply Z.ltb_ge in E
         end.

Ltac boot_cases :=
  unfold boot, startup_message, bootstrap_calls, bind_address in *;
  repeat match goal with
         | |- context [if negb ?c then _ else _] => destruct c eqn:?; cbn [negb] in *
         | H : context [if negb ?c then _ else _] |- _ => destruct c eqn:?; cbn [negb] in *
         | |- context [if ?c then _ else _] => destruct c eqn:?
         | H : context [if ?c then _ else _] |- _ => destruct c eqn:?
         end;
  cbn [fst snd app negb] in *.

Lemma boot_some (sfd : Z) :
  snd (boot host w argc argv) = Some sfd ->
  sfd = w [] (sys_socket AF_INET6 SOCK_STREAM 0) /\ sfd <> 0 /\
  w [Called (sys_socket AF_INET6 SOCK_STREAM 0) sfd]
    (sys_setsockopt sfd SOL_SOCKET SO_REUSEADDR 1 sizeof_int) = 0 /\
  exists r4 r5,
    0 <= r4 /\ 0 <= r5 /\
    tr0 = bootstrap_calls host argc argv sfd r4 r5 ++
          [startup_message (configured_port argc argv)].
Proof.
  intros H. boot_cases; try discriminate. injection H as <-. to_props.
  split; [reflexivity|]. split; [assumption|]. split; [assumption|].
  match goal with
  | |- context [Called (sys_bind _ _ _) ?r4 :: Called (sys_listen _ _) ?r5 :: _] =>
      exists r4, r5
  end.
  split; [assumption|]. split; [assumption|].
  cbn [app]. repeat f_equal; assumption.
Qed.

Lemma boot_none :
  snd (boot host w argc argv) = None -> existsb is_startup_message tr0 = false.
Proof. intros H. boot_cases; try discriminate; reflexivity. Qed.

(** A start-up call that fails is among the last three records of the
    start-up code, which then ends in [exit]; on a negative descriptor this
    needs the next call to fail. *)
Lemma boot_failure_fatal (fuel : nat) :
  ebadf w ->
  existsb is_boot_failure (firstn fuel tr0) = true ->
  snd (boot host w argc argv) = None /\ (List.length tr0 < fuel + 3)%nat.
Proof.
  intros Hw H.
  assert (Hbad : w [] (sys_socket AF_INET6 SOCK_STREAM 0) < 0 ->
                 (w [Called (sys_socket AF_INET6 SOCK_STREAM 0)
                       (w [] (sys_socket AF_INET6 SOCK_STREAM 0))]
                    (sys_setsockopt (w [] (sys_socket AF_INET6 SOCK_STREAM 0))
                       SOL_SOCKET SO_REUSEADDR 1 sizeof_int) =? 0) = false).
  { intros Hneg. erewrite Hw; [reflexivity|reflexivity|exact Hneg]. }
  destruct (w [] (sys_socket AF_INET6 SOCK_STREAM 0) <? 0) eqn:Es;
    [apply Z.ltb_lt in Es; specialize (Hbad Es)|clear Hbad];
    boot_cases; try congruence; try (exfalso; to_props; lia);
    destruct fuel as [|[|[|[|[|[|fuel]]]]]];
    cbn [firstn existsb is_boot_failure orb negb List.length] in H |- *;
    repeat match goal with
           | E : ?c = _, H : context [?c] |- _ => rewrite E in H
           end;
    cbn [orb negb] in H; try discriminate; try (split; [reflexivity|lia]);
    destruct fuel; cbn in H; discriminate.
Qed.

Lemma boot_message (fuel : nat) :
  existsb is_startup_message (firstn fuel tr0) = true ->
  (6 <= fuel)%nat /\ exists sfd, snd (boot host w argc argv) = Some sfd.
Proof.
  intros H. boot_cases;
    destruct fuel as [|[|[|[|[|[|fuel]]]]]]; cbn in H; try discriminate;
    try (destruct fuel; cbn in H; discriminate);
    split; try lia; eauto.
Qed.

Lemma boot_listen (fuel : nat) (fd n r : Z) :
  In (Called (sys_listen fd n) r) (firstn fuel tr0) -> 0 <= r ->
  (5 <= fuel)%nat /\ exists sfd, snd (boot host w argc argv) = Some sfd.
Proof.
  intros H Hr. split.
  - boot_cases; destruct fuel as [|[|[|[|[|fuel]]]]]; try lia;
      cbn in H; repeat destruct H as [H|H]; try discriminate; contradiction.
  - apply in_firstn in H.
    boot_cases; to_props; cbn [In] in H; repeat destruct H as [H|H];
      try discriminate; try contradiction; eauto.
    injection H as <- <- <-. exfalso. lia.
Qed.

(** The start-up part of any run. *)
Lemma run_boot_part (fuel : nat) :
  exists l, fst (exec fuel) = firstn fuel tr0 ++ l /\
            forall e, In e l -> is_boot_call e = false /\ is_startup_message e = false.
Proof.
  destruct (main_cases host w argc argv fuel)
    as [Hle Hrun|Hgt Hnone Hrun|sfd k n Hsome h ev Hn Hm Hj Hrun];
    rewrite Hrun; cbn [fst].
  - exists []. rewrite List.app_nil_r. split; [reflexivity|contradiction].
  - exists []. rewrite List.app_nil_r, firstn_all2 by lia. split; [reflexivity|contradiction].
  - rewrite (firstn_all2 (n := fuel)) by lia.
    assert (Hh : exists l, h = tr0 ++ l /\
              forall e, In e l -> is_boot_call e = false /\ is_startup_message e = false).
    { subst h. apply (loop_head_ind w sfd
               (fun h => exists l, h = tr0 ++ l /\
                  forall e, In e l -> is_boot_call e = false /\ is_startup_message e = false)).
      - intros h (l & -> & Hl). eexists. rewrite <- List.app_assoc. split; [reflexivity|].
        intros e He. apply in_app_or in He as [He|He]; auto.
        apply iteration_events in He. tauto.
      - exists []. rewrite List.app_nil_r. split; [reflexivity|contradiction]. }
    destruct Hh as (l & -> & Hl). eexists. rewrite <- List.app_assoc.
    split; [reflexivity|].
    intros e He. apply in_app_or in He as [He|He]; auto.
    apply in_firstn in He. apply iteration_events in He. tauto.
Qed.

(** A failure of [setsockopt], [bind] or [listen] is reported at once and
    the process exits with status 1 on the step after. *)
Lemma later_failure_reported (fuel : nat) (pre : trace) (c : syscall) (r : Z) :
  fst (exec fuel) = pre ++ [Called c r] ->
  is_boot_failure (Called c r) = true ->
  (forall d t p, c <> sys_socket d t p) ->
  exists msg,
    exec (fuel + 2) = (pre ++ [Called c r; Printed (out_perror msg)], Exited 1).
Proof.
  intros H Hfail Hns.
  destruct (run_boot_part fuel) as (l & Hl & Hnone). rewrite Hl in H. clear Hl.
  assert (l = []) as ->.
  { destruct l as [|x l' _] using rev_ind; [reflexivity|]. exfalso.
    rewrite List.app_assoc in H. apply app_inj_tail in H as [_ ->].
    destruct (Hnone (Called c r)) as [Hc _]; [apply in_or_app; right; now left|].
    apply boot_failure_is_call in Hfail. congruence. }
  rewrite List.app_nil_r in H. clear Hnone.
  pose proof (run_boot host w argc argv (fuel + 2)) as Hb.
  boot_cases;
    destruct fuel as [|[|[|[|[|[|[|fuel]]]]]]];
    cbn [firstn] in H; rewrite ?firstn_nil in H;
    apply (f_equal (@rev event)) in H; rewrite rev_app_distr in H;
    cbn [rev app] in H; try discriminate;
    injection H as <- <- Hpre;
    try (exfalso; eapply Hns; reflexivity);
    cbn [is_boot_failure] in Hfail;
    repeat match goal with
           | E : ?b = _, H : context [?b] |- _ => rewrite E in H
           end;
    try discriminate;
    apply (f_equal (@rev event)) in Hpre; rewrite rev_involutive in Hpre;
    cbn [rev app] in Hpre; subst pre;
    cbn [Nat.add Nat.leb List.length] in Hb |- *; rewrite Hb;
    eexists; reflexivity.
Qed.

(** A failure of [socket] is not: nothing is ever printed for it, and the
    next step is [setsockopt] on the negative descriptor. *)
Lemma socket_failure_unreported (fuel : nat) :
  let sfd := w [] (sys_socket AF_INET6 SOCK_STREAM 0) in
  sfd < 0 ->
  ~ In (Printed (out_perror "socket failed")) (fst (exec fuel)) /\
  ((2 <= fuel)%nat ->
   exists r,
     firstn 2 (fst (exec fuel)) =
     [Called (sys_socket AF_INET6 SOCK_STREAM 0) sfd;
      Called (sys_setsockopt sfd SOL_SOCKET SO_REUSEADDR 1 sizeof_int) r]).
Proof.
  intros sfd Hneg. subst sfd.
  assert (E : (w [] (sys_socket AF_INET6 SOCK_STREAM 0) =? 0) = false)
    by (apply Z.eqb_neq; lia).
  split.
  - intros H. apply run_event in H as [H|(sfd & h & _ & H)].
    + unfold boot in H. rewrite E in H.
      repeat match type of H with
             | context [if ?c then _ else _] => destruct c
             end;
        cbn in H; repeat destruct H as [H|H]; try discriminate; contradiction.
    + unfold iteration in H. destruct (_ <? 0);
        cbn in H; repeat destruct H as [H|H]; try discriminate; contradiction.
  - intros Hfuel. destruct (run_boot_part fuel) as (l & -> & _).
    unfold boot. rewrite E.
    repeat match goal with
           | |- context [if ?c then _ else _] => destruct c
           end;
      destruct fuel as [|[|fuel]]; try lia; cbn; eexists; reflexivity.
Qed.

End Bootstrap.

(** ** The start-up and the life of the process *)

Section Lifetime.

Variable host : endianness.
Variable w : world.
Variables (argc : Z) (argv : list string).

Local Abbreviation tr0 := (fst (boot host w argc argv)).
Local Abbreviation exec fuel := (run fuel w [] (main host argc argv)).

Lemma listening (fuel : nat) (fd n r : Z) :
  In (Called (sys_listen fd n) r) (fst (exec fuel)) -> 0 <= r ->
  (5 <= fuel)%nat /\ exists sfd, snd (boot host w argc argv) = Some sfd.
Proof.
  intros H Hr. destruct (run_boot_part host w argc argv fuel) as (l & Hl & Hnone).
  rewrite Hl in H. apply in_app_or in H as [H|H].
  - eapply boot_listen; eauto.
  - apply Hnone in H as [H _]. discriminate.
Qed.

(** C5.  A run never returns from [main] and never exits with status 0:
    it is running or has exited with status 1.  Once [listen] has
    succeeded, it is running after any number of further steps. *)
Theorem serve_loop_never_ends (fuel : nat) :
  let p := main host argc argv in
  (snd (run fuel w [] p) = Running \/ snd (run fuel w [] p) = Exited 1) /\
  (forall fd n r,
     In (Called (sys_listen fd n) r) (fst (run fuel w [] p)) -> 0 <= r ->
     forall more, snd (run (fuel + more) w [] p) = Running).
Proof.
  intros p. subst p. split.
  - destruct (main_cases host w argc argv fuel)
      as [Hle Hrun|Hgt Hnone Hrun|sfd k n Hsome h ev Hn Hm Hj Hrun];
      rewrite Hrun; cbn [snd]; auto.
  - intros fd n r H Hr more.
    apply listening in H as (_ & sfd & Hsome); [|exact Hr].
    destruct (main_cases host w argc argv (fuel + more))
      as [Hle Hrun|Hgt Hnone Hrun|sfd' k n' Hsome' h ev Hn Hm Hj Hrun];
      rewrite Hrun; cbn [snd]; auto. congruence.
Qed.

(** C6.  In a run in which [listen] has succeeded, the first five records
    are, in this order: [socket (AF_INET6, SOCK_STREAM, 0)];
    [setsockopt] of SO_REUSEADDR to 1; [setsockopt] of IPV6_V6ONLY to 0;
    [bind] to the wildcard address and the configured port; [listen] with
    a backlog of 3, each on the descriptor the first returned. *)
Theorem bootstrap_sequence (fuel : nat) (fd n r : Z) :
  In (Called (sys_listen fd n) r) (fst (run fuel w [] (main host argc argv))) ->
  0 <= r ->
  exists sfd r4,
    firstn 5 (fst (run fuel w [] (main host argc argv))) =
      bootstrap_calls host argc argv sfd r4 r /\
    fd = sfd /\ n = 3 /\ sfd <> 0 /\ 0 <= r4 /\
    sin6_addr (bind_address host argc argv) = repeat x00 16 /\
    ntohs host (sin6_port (bind_address host argc argv)) =
      configured_port argc argv mod 2 ^ 16.
Proof.
  intros H Hr.
  destruct (run_boot_part host w argc argv fuel) as (l & Hl & Hnone).
  rewrite Hl in *. apply in_app_or in H as [H|H];
    [|apply Hnone in H as [H _]; discriminate].
  destruct (boot_listen host w argc argv fuel fd n r H Hr) as (Hfuel & sfd & Hsome).
  apply boot_some in Hsome as (_ & Hsfd & _ & r4 & r5 & Hr4 & Hr5 & Htr).
  rewrite Htr in *. apply in_firstn in H.
  assert (fd = sfd /\ n = 3 /\ r = r5) as (-> & -> & ->).
  { unfold bootstrap_calls, startup_message in H. cbn [app In] in H.
    repeat destruct H as [H|H]; try discriminate; try contradiction.
    injection H as <- <- <-. auto. }
  exists sfd, r4. repeat split; auto.
  - destruct fuel as [|[|[|[|[|fuel]]]]]; try lia. reflexivity.
  - cbn. apply ntohs_htons.
Qed.

(** C7.  Where a call on a negative descriptor fails: if the start-up
    message is in the record, the first six records are the five start-up
    calls, all successful, and the message; if a start-up call has failed,
    the message is not in the record, and within three more steps the
    process has exited with status 1 without the message. *)
Theorem startup_message_after_bootstrap (fuel : nat) :
  ebadf w ->
  let p := main host argc argv in
  (existsb is_startup_message (fst (run fuel w [] p)) = true ->
   exists sfd r4 r5,
     firstn 6 (fst (run fuel w [] p)) =
       bootstrap_calls host argc argv sfd r4 r5 ++
       [startup_message (configured_port argc argv)] /\
     0 <= sfd /\ 0 <= r4 /\ 0 <= r5) /\
  (existsb is_boot_failure (fst (run fuel w [] p)) = true ->
   existsb is_startup_message (fst (run fuel w [] p)) = false /\
   exists tr, run (fuel + 3) w [] p = (tr, Exited 1) /\
              existsb is_startup_message tr = false).
Proof.
  intros Hw p. subst p.
  destruct (run_boot_part host w argc argv fuel) as (l & Hl & Hnone).
  assert (Hl1 : existsb is_startup_message l = false)
    by (apply existsb_none; intros x Hx; now apply Hnone).
  assert (Hl2 : existsb is_boot_failure l = false).
  { apply existsb_none. intros x Hx. apply Hnone in Hx as [Hx _].
    destruct (is_boot_failure x) eqn:E; [|reflexivity].
    apply boot_failure_is_call in E. congruence. }
  rewrite Hl, !existsb_app, Hl1, Hl2, !orb_false_r. split; intros H.
  - apply boot_message in H as (Hfuel & sfd & Hsome).
    apply boot_some in Hsome as (_ & _ & Hsso & r4 & r5 & Hr4 & Hr5 & Htr).
    exists sfd, r4, r5. repeat split; auto.
    + rewrite Htr. destruct fuel as [|[|[|[|[|[|fuel]]]]]]; try lia. reflexivity.
    + destruct (Z.lt_ge_cases sfd 0) as [Hneg|Hpos]; [|exact Hpos].
      rewrite (Hw _ (sys_setsockopt sfd SOL_SOCKET SO_REUSEADDR 1 sizeof_int) sfd
                 eq_refl Hneg) in Hsso.
      discriminate.
  - apply boot_failure_fatal in H as (Hnone' & Hlen); [|exact Hw].
    pose proof (boot_none host w argc argv Hnone') as Hmsg.
    split; [now apply existsb_firstn_none|].
    exists tr0. split; [|exact Hmsg].
    destruct (main_cases host w argc argv (fuel + 3))
      as [Hle Hrun|Hgt _ Hrun|sfd k n Hsome h ev Hn Hm Hj Hrun];
      [lia|exact Hrun|congruence].
Qed.

End Lifetime.

(** ** Descriptors held *)

Lemma conn_step_boot (l : list event) (held : list Z) :
  (forall e, In e l -> is_boot_call e = true \/ is_print e = true) ->
  fold_left conn_step l held = held.
Proof.
  induction l as [|a l IH]; intros H; cbn [fold_left]; [reflexivity|].
  assert (Ha : conn_step held a = held).
  { destruct (H a (or_introl eq_refl)) as [Ha|Ha];
      destruct a as [[] r|o]; cbn in Ha |- *; auto; discriminate. }
  rewrite Ha. apply IH. intros e He. apply H. now right.
Qed.

Lemma conn_step_turn (w : world) (sfd : Z) (h : trace) (m : nat) :
  (List.length (fold_left conn_step (firstn m (iteration w sfd h)) []) <= 1)%nat /\
  fold_left conn_step (iteration w sfd h) [] = [].
Proof.
  unfold iteration. destruct (_ <? 0) eqn:E.
  - split; [|cbn; now rewrite E].
    destruct m as [|[|m]]; cbn; rewrite ?E; cbn; try lia.
    rewrite firstn_nil. cbn. lia.
  - assert (Hrm : forall c : Z, remove Z.eq_dec c [c] = []).
    { intros c. cbn. destruct (Z.eq_dec c c); [reflexivity|contradiction]. }
    split; [|cbn [fold_left conn_step]; rewrite E; apply Hrm].
    destruct m as [|[|[|[|[|[|m]]]]]]; cbn [firstn fold_left conn_step];
      rewrite ?E, ?Hrm, ?firstn_nil; cbn; lia.
Qed.

Section Descriptors.

Variable host : endianness.
Variable w : world.
Variables (argc : Z) (argv : list string).

Local Abbreviation tr0 := (fst (boot host w argc argv)).
Local Abbreviation exec fuel := (run fuel w [] (main host argc argv)).

Lemma connections_loop_head (sfd : Z) (k : nat) :
  connections (loop_head w sfd k tr0) = [].
Proof.
  apply loop_head_ind.
  - intros h Hh. unfold connections in *. rewrite fold_left_app, Hh.
    apply (conn_step_turn w sfd h O).
  - apply conn_step_boot. apply boot_events.
Qed.

(** C8.  Where [accept] does not return the listening descriptor itself:
    no run calls [close] on the listening socket; a run never holds more
    than one connection; and whenever the next step is a call of [accept],
    on the listening socket, it holds none. *)
Theorem listener_open_one_connection (fuel : nat) :
  let sfd := w [] (sys_socket AF_INET6 SOCK_STREAM 0) in
  let p := main host argc argv in
  (forall h, w h (sys_accept sfd) <> sfd) ->
  (forall r, ~ In (Called (sys_close sfd) r) (fst (run fuel w [] p))) /\
  (List.length (connections (fst (run fuel w [] p))) <= 1)%nat /\
  (forall fd c,
     fst (run (S fuel) w [] p) = fst (run fuel w [] p) ++ [Called (sys_accept fd) c] ->
     fd = sfd /\ connections (fst (run fuel w [] p)) = []).
Proof.
  intros sfd p Hfresh. subst p. repeat split.
  - intros r H. apply run_event in H as [H|(sfd' & h & Hsome & H)].
    + apply boot_events in H. cbn in H. destruct H; discriminate.
    + apply boot_some in Hsome as (-> & _).
      apply iteration_events in H as (_ & _ & H & _).
      exact (Hfresh _ (eq_sym H)).
  - destruct (main_cases host w argc argv fuel)
      as [Hle Hrun|Hgt Hnone Hrun|sfd' k n Hsome h ev Hn Hm Hj Hrun];
      rewrite Hrun; cbn [fst]; unfold connections.
    + rewrite conn_step_boot; [cbn; lia|].
      intros e He. apply in_firstn in He. now apply boot_events in He.
    + rewrite conn_step_boot; [cbn; lia|]. apply boot_events.
    + rewrite fold_left_app. fold (connections h). subst h.
      rewrite connections_loop_head. apply conn_step_turn.
  - apply ends_with_accept in H as (n & _ & Hsome & _).
    now apply boot_some in Hsome as (-> & _).
  - apply ends_with_accept in H as (n & Hn & _ & _ & _ & (k & Hk) & _).
    rewrite Hk. apply connections_loop_head.
Qed.

End Descriptors.

(** ** Runs against the operating systems above *)

Lemma serve_loop_never_ends_witness :
  let p := main LittleEndian 1 ["fly-test"] in
  In (Called (sys_listen 3 3) 0) (fst (run 5 calm [] p)) /\
  snd (run 100 calm [] p) = Running.
Proof.
  intros p.
  assert (H : In (Called (sys_listen 3 3) 0) (fst (run 5 calm [] p)))
    by (vm_compute; right; right; right; right; left; reflexivity).
  split; [exact H|].
  destruct (serve_loop_never_ends LittleEndian calm 1 ["fly-test"] 5) as [_ Hloop].
  exact (Hloop 3 3 0 H ltac:(lia) 95%nat).
Defined.

Lemma bootstrap_sequence_witness :
  let argv := ["fly-test"; "8080"] in
  let p := main LittleEndian 2 argv in
  In (Called (sys_listen 3 3) 0) (fst (run 5 calm [] p)) /\
  exists sfd r4,
    firstn 5 (fst (run 5 calm [] p)) = bootstrap_calls LittleEndian 2 argv sfd r4 0 /\
    3 = sfd /\ 3 = 3 /\ sfd <> 0 /\ 0 <= r4 /\
    sin6_addr (bind_address LittleEndian 2 argv) = repeat x00 16 /\
    ntohs LittleEndian (sin6_port (bind_address LittleEndian 2 argv)) =
      configured_port 2 argv mod 2 ^ 16.
Proof.
  intros argv p.
  assert (H : In (Called (sys_listen 3 3) 0) (fst (run 5 calm [] p)))
    by (vm_compute; right; right; right; right; left; reflexivity).
  split; [exact H|].
  exact (bootstrap_sequence LittleEndian calm 2 argv 5 3 3 0 H ltac:(lia)).
Defined.

Lemma startup_message_after_bootstrap_witness :
  let p := main LittleEndian 1 ["fly-test"] in
  (ebadf calm /\
   existsb is_startup_message (fst (run 6 calm [] p)) = true /\
   exists sfd r4 r5,
     firstn 6 (fst (run 6 calm [] p)) =
       bootstrap_calls LittleEndian 1 ["fly-test"] sfd r4 r5 ++
       [startup_message (configured_port 1 ["fly-test"])] /\
     0 <= sfd /\ 0 <= r4 /\ 0 <= r5) /\
  (ebadf busy_port /\
   existsb is_boot_failure (fst (run 4 busy_port [] p)) = true /\
   existsb is_startup_message (fst (run 4 busy_port [] p)) = false /\
   exists tr,
     run 7 busy_port [] p = (tr, Exited 1) /\ existsb is_startup_message tr = false).
Proof.
  intros p. split.
  - split; [exact calm_ebadf|]. split; [vm_compute; reflexivity|].
    destruct (startup_message_after_bootstrap LittleEndian calm 1 ["fly-test"] 6
                calm_ebadf) as [H _].
    apply H. vm_compute. reflexivity.
  - split; [exact busy_port_ebadf|]. split; [vm_compute; reflexivity|].
    destruct (startup_message_after_bootstrap LittleEndian busy_port 1 ["fly-test"] 4
                busy_port_ebadf) as [_ H].
    apply H. vm_compute. reflexivity.
Defined.

Lemma listener_open_one_connection_witness :
  let p := main LittleEndian 1 ["fly-test"] in
  (forall h, calm h (sys_accept 3) <> 3) /\
  (forall r, ~ In (Called (sys_close 3) r) (fst (run 13 calm [] p))) /\
  (List.length (connections (fst (run 9 calm [] p))) <= 1)%nat /\
  fst (run 14 calm [] p) = fst (run 13 calm [] p) ++ [Called (sys_accept 3) 4] /\
  connections (fst (run 13 calm [] p)) = [].
Proof.
  intros p.
  assert (Hfresh : forall h, calm h (sys_accept 3) <> 3) by (intros h; cbn; lia).
  assert (Hnext : fst (run 14 calm [] p) =
                  fst (run 13 calm [] p) ++ [Called (sys_accept 3) 4])
    by (vm_compute; reflexivity).
  destruct (listener_open_one_connection LittleEndian calm 1 ["fly-test"] 9 Hfresh)
    as (_ & Hone & _).
  destruct (listener_open_one_connection LittleEndian calm 1 ["fly-test"] 13 Hfresh)
    as (Hopen & _ & Hnone).
  split; [exact Hfresh|]. split; [exact Hopen|]. split; [exact Hone|].
  split; [exact Hnext|]. exact (proj2 (Hnone 3 4 Hnext)).
Defined.

(** C1.  The claim fails where [socket] fails.  With no descriptor left,
    [socket] answers -1; the test of line 19 compares with 0, so nothing is
    reported for it and the process does not stop there: it goes on to
    [setsockopt] on descriptor -1 and exits only because that call fails. *)
Theorem socket_failure_goes_unnoticed :
  run 4 no_sockets [] (main LittleEndian 1 ["fly-test"]) =
  ([Called (sys_socket AF_INET6 SOCK_STREAM 0) (-1);
    Called (sys_setsockopt (-1) SOL_SOCKET SO_REUSEADDR 1 sizeof_int) (-1);
    Printed (out_perror "setsockopt")],
   Exited 1).
Proof. vm_compute. reflexivity. Qed.

(** ** More about a run: helpers *)

Lemma filter_none {A} (f : A -> bool) (l : list A) :
  (forall x, In x l -> f x = false) -> filter f l = [].
Proof.
  induction l as [|a l IH]; intros H; cbn; [reflexivity|].
  rewrite (H a (or_introl eq_refl)). apply IH. intros x Hx. apply H. now right.
Qed.

Lemma iteration_turn (w : world) (sfd : Z) (h : trace) : turn sfd (iteration w sfd h).
Proof.
  destruct (Z.lt_ge_cases (w h (sys_accept sfd)) 0) as [Hc|Hc].
  - rewrite (turn_failed _ _ _ Hc). now constructor.
  - destruct (turn_served _ _ _ Hc) as (r1 & r2 & ->). now constructor.
Qed.

Lemma iteration_length (w : world) (sfd : Z) (h : trace) :
  (List.length (iteration w sfd h) <= 6)%nat.
Proof. unfold iteration. destruct (_ <? 0); cbn; lia. Qed.

Lemma loop_head_turns (w : world) (sfd : Z) (k : nat) :
  forall h, exists done, loop_head w sfd k h = h ++ done /\ turns sfd k done.
Proof.
  induction k as [|k IH]; intros h; cbn [loop_head].
  - exists []. rewrite List.app_nil_r. split; [reflexivity|constructor].
  - destruct (IH (h ++ iteration w sfd h)) as (d & -> & Hd).
    exists (iteration w sfd h ++ d). rewrite List.app_assoc. split; [reflexivity|].
    constructor; [apply iteration_turn|exact Hd].
Qed.

Lemma reach_loop_head (w : world) (sfd : Z) (k : nat) :
  forall h, exists n,
    (n <= 7 * k)%nat /\
    forall j, run (n + j) w h (serving sfd) = run j w (loop_head w sfd k h) (serving sfd).
Proof.
  induction k as [|k IH]; intros h; cbn [loop_head].
  - exists O. split; [lia|reflexivity].
  - set (ev := iteration w sfd h).
    destruct (IH (h ++ ev)) as (n & Hn & Hrun).
    pose proof (iteration_length w sfd h) as Hlen. fold ev in Hlen.
    exists (S (List.length ev) + n)%nat. split; [lia|].
    intros j. rewrite run_iteration. fold ev. cbv zeta.
    destruct (Nat.leb_spec (S (List.length ev) + n + j) (List.length ev)) as [Hle|_]; [lia|].
    replace (S (List.length ev) + n + j - S (List.length ev))%nat with (n + j)%nat by lia.
    apply Hrun.
Qed.

Lemma iteration_head (w : world) (sfd : Z) (h : trace) :
  exists l, iteration w sfd h = Called (sys_accept sfd) (w h (sys_accept sfd)) :: l.
Proof. unfold iteration. destruct (_ <? 0); eexists; reflexivity. Qed.

(** The descriptors of the calls recorded in [h], for the listening
    descriptor [sfd]. *)
Lemma turn_prefix_descriptors (w : world) (sfd : Z) (h : trace) (m : nat) :
  let good (tr : trace) (e : event) :=
    match e with
    | Called (sys_accept fd) _ => fd = sfd
    | Called (sys_write fd _ _) _ | Called (sys_close fd) _ =>
        0 <= fd /\ In (Called (sys_accept sfd) fd) tr
    | _ => True
    end in
  (forall e, In e h -> good h e) ->
  forall e, In e (h ++ firstn m (iteration w sfd h)) ->
            good (h ++ firstn m (iteration w sfd h)) e.
Proof.
  intros good Hh e He. apply in_app_or in He as [He|He].
  - specialize (Hh e He).
    destruct e as [[] r|o]; cbn in Hh |- *; auto;
      destruct Hh as [H0 Hin]; (split; [exact H0|apply in_or_app; now left]).
  - assert (Hacc : In (Called (sys_accept sfd) (w h (sys_accept sfd)))
                      (h ++ firstn m (iteration w sfd h))).
    { apply in_or_app. right.
      destruct (iteration_head w sfd h) as (l & Hl). rewrite Hl in He |- *.
      destruct m; [contradiction|]. now left. }
    apply in_firstn, iteration_events in He as (_ & _ & He).
    destruct e as [[] r|o]; cbn; auto; try contradiction.
    + tauto.
    + destruct He as (-> & _ & _ & H0). auto.
    + destruct He as (-> & H0). auto.
Qed.

Lemma loop_head_turn_descriptors (w : world) (sfd : Z) (k : nat) :
  let good (tr : trace) (e : event) :=
    match e with
    | Called (sys_accept fd) _ => fd = sfd
    | Called (sys_write fd _ _) _ | Called (sys_close fd) _ =>
        0 <= fd /\ In (Called (sys_accept sfd) fd) tr
    | _ => True
    end in
  forall h m,
    (forall e, In e h -> good h e) ->
    forall e,
      In e (loop_head w sfd k h ++ firstn m (iteration w sfd (loop_head w sfd k h))) ->
      good (loop_head w sfd k h ++ firstn m (iteration w sfd (loop_head w sfd k h))) e.
Proof.
  intros good. induction k as [|k IH]; intros h m Hh; cbn [loop_head].
  - now apply turn_prefix_descriptors.
  - apply IH. intros e He.
    pose proof (turn_prefix_descriptors w sfd h (List.length (iteration w sfd h)) Hh e) as X.
    rewrite firstn_all in X. now apply X.
Qed.

Section Further.

Variable host : endianness.
Variable w : world.
Variables (argc : Z) (argv : list string).

Ltac to_props :=
  repeat match goal with
         | E : (_ =? _) = true |- _ => apply Z.eqb_eq in E
         | E : (_ =? _) = false |- _ => apply Z.eqb_neq in E
         | E : (_ <? _) = true |- _ => apply Z.ltb_lt in E
         | E : (_ <? _) = false |- _ => apply Z.ltb_ge in E
         end.

Ltac boot_cases :=
  unfold boot, startup_message, bootstrap_calls, start_up_calls, bind_address in *;
  repeat match goal with
         | |- context [if negb ?c then _ else _] => destruct c eqn:?; cbn [negb] in *
         | H : context [if negb ?c then _ else _] |- _ => destruct c eqn:?; cbn [negb] in *
         | |- context [if ?c then _ else _] => destruct c eqn:?
         | H : context [if ?c then _ else _] |- _ => destruct c eqn:?
         end;
  cbn [fst snd app negb] in *.

Lemma run_after_boot (sfd : Z) (n : nat) :
  snd (boot host w argc argv) = Some sfd ->
  run (List.length (fst (boot host w argc argv)) + n) w [] (main host argc argv) =
  run n w (fst (boot host w argc argv)) (serving sfd).
Proof.
  intros H. rewrite run_boot.
  destruct (boot host w argc argv) as [tr next]. cbn [fst snd] in *. subst next.
  destruct n as [|n].
  - rewrite Nat.add_0_r, Nat.leb_refl, firstn_all. reflexivity.
  - destruct (Nat.leb_spec (List.length tr + S n) (List.length tr)) as [Hle|_]; [lia|].
    now replace (List.length tr + S n - List.length tr)%nat with (S n) by lia.
Qed.

Lemma boot_exit :
  snd (boot host w argc argv) = None ->
  (List.length (fst (boot host w argc argv)) <= 6)%nat /\
  existsb is_accept (fst (boot host w argc argv)) = false /\
  exists pre c r,
    fst (boot host w argc argv) =
    pre ++ [Called c r; Printed (out_perror (failure_message c))].
Proof.
  intros H. boot_cases; try discriminate;
    (split; [cbn; lia|]); (split; [reflexivity|]);
    match goal with
    | |- exists pre c r, ?l = _ =>
        match l with
        | context [Called ?c ?r :: Printed _ :: nil] =>
            exists (firstn (List.length l - 2) l), c, r; reflexivity
        end
    end.
Qed.

(** X1.  A failure of [setsockopt], [bind] or [listen] is reported on the
    next step with the text the source gives for that call, and the process
    has exited with status 1 on the step after; nothing else is recorded. *)
Theorem start_up_failure_reported (fuel : nat) (pre : trace) (c : syscall) (r : Z) :
  fst (run fuel w [] (main host argc argv)) = pre ++ [Called c r] ->
  is_boot_failure (Called c r) = true ->
  (forall d t p, c <> sys_socket d t p) ->
  let h := pre ++ [Called c r; Printed (out_perror (failure_message c))] in
  run (fuel + 1) w [] (main host argc argv) = (h, Running) /\
  forall more, run (fuel + 2 + more) w [] (main host argc argv) = (h, Exited 1).
Proof.
  intros H Hfail Hns h. subst h.
  destruct (run_boot_part host w argc argv fuel) as (l & Hl & Hnone).
  rewrite Hl in H. clear Hl.
  assert (l = []) as ->.
  { destruct l as [|x l' _] using rev_ind; [reflexivity|]. exfalso.
    rewrite List.app_assoc in H. apply app_inj_tail in H as [_ ->].
    destruct (Hnone (Called c r)) as [Hc _]; [apply in_or_app; right; now left|].
    apply boot_failure_is_call in Hfail. congruence. }
  rewrite List.app_nil_r in H. clear Hnone.
  pose proof (run_boot host w argc argv (fuel + 1)) as Hb1.
  assert (Hb2 : forall more, run (fuel + 2 + more) w [] (main host argc argv) =
                  let (tr, next) := boot host w argc argv in
                  if (fuel + 2 + more <=? List.length tr)%nat
                  then (firstn (fuel + 2 + more) tr, Running)
                  else match next with
                       | None => (tr, Exited EXIT_FAILURE)
                       | Some server_fd =>
                           run (fuel + 2 + more - List.length tr) w tr (serving server_fd)
                       end)
    by (intros more; apply run_boot).
  boot_cases;
    destruct fuel as [|[|[|[|[|[|[|fuel]]]]]]];
    cbn [firstn] in H; rewrite ?firstn_nil in H;
    apply (f_equal (@rev event)) in H; rewrite rev_app_distr in H;
    cbn [rev app] in H; try discriminate;
    injection H as <- <- Hpre;
    try (exfalso; eapply Hns; reflexivity);
    cbn [is_boot_failure] in Hfail;
    repeat match goal with
           | E : ?b = _, H : context [?b] |- _ => rewrite E in H
           end;
    try discriminate;
    apply (f_equal (@rev event)) in Hpre; rewrite rev_involutive in Hpre;
    cbn [rev app] in Hpre; subst pre;
    cbn [Nat.add Nat.leb List.length] in Hb1, Hb2 |- *;
    (split; [rewrite Hb1; reflexivity | intros more; rewrite Hb2; reflexivity]).
Qed.

(** X2.  A socket that is descriptor 0 is taken for a failure (the test of
    line 19 is [== 0]): the process reports "socket failed", makes no
    further call and exits with status 1. *)
Theorem descriptor_zero_rejected (fuel : nat) :
  w [] (sys_socket AF_INET6 SOCK_STREAM 0) = 0 ->
  (3 <= fuel)%nat ->
  run fuel w [] (main host argc argv) =
  ([Called (sys_socket AF_INET6 SOCK_STREAM 0) 0;
    Printed (out_perror "socket failed")],
   Exited EXIT_FAILURE).
Proof.
  intros H Hfuel. rewrite run_boot. unfold boot. rewrite H. cbn.
  destruct fuel as [|[|[|fuel]]]; try lia. reflexivity.
Qed.

(** X3.  A failure of [socket] (a negative answer) is never reported: no
    run prints "socket failed" for it.  Where a call on a negative
    descriptor fails with -1, the process goes on to [setsockopt] on that
    descriptor, reports that call instead and exits with status 1. *)
Theorem socket_failure_not_detected (fuel : nat) :
  let sfd := w [] (sys_socket AF_INET6 SOCK_STREAM 0) in
  sfd < 0 ->
  ~ In (Printed (out_perror "socket failed")) (fst (run fuel w [] (main host argc argv))) /\
  (ebadf w -> (4 <= fuel)%nat ->
   run fuel w [] (main host argc argv) =
   ([Called (sys_socket AF_INET6 SOCK_STREAM 0) sfd;
     Called (sys_setsockopt sfd SOL_SOCKET SO_REUSEADDR 1 sizeof_int) (-1);
     Printed (out_perror "setsockopt")],
    Exited EXIT_FAILURE)).
Proof.
  intros sfd Hneg.
  assert (E : (sfd =? 0) = false) by (apply Z.eqb_neq; lia).
  split.
  - intros H. apply run_event in H as [H|(s & h & _ & H)].
    + unfold boot in H. fold sfd in H. rewrite E in H.
      repeat match type of H with
             | context [if ?c then _ else _] => destruct c
             end;
        cbn in H; repeat destruct H as [H|H]; try discriminate; contradiction.
    + unfold iteration in H. destruct (_ <? 0);
        cbn in H; repeat destruct H as [H|H]; try discriminate; contradiction.
  - intros Hw Hfuel. rewrite run_boot. unfold boot. fold sfd. rewrite E.
    rewrite (Hw [Called (sys_socket AF_INET6 SOCK_STREAM 0) sfd]
                (sys_setsockopt sfd SOL_SOCKET SO_REUSEADDR 1 sizeof_int) sfd eq_refl Hneg).
    cbn. destruct fuel as [|[|[|[|fuel]]]]; try lia. reflexivity.
Qed.

(** X4.  The start-up message shows the [int] read from the command line
    (or 1848), while [bind] gets that number cut to 16 bits: the port
    announced is the port bound exactly when the number lies in 0..65535. *)
Theorem announced_port (fuel : nat) (args : list Z) (fd len r : Z) (a : sockaddr_in6) :
  In (Printed (out_printf "Server listening on port %d\n" args))
     (fst (run fuel w [] (main host argc argv))) ->
  In (Called (sys_bind fd a len) r) (fst (run fuel w [] (main host argc argv))) ->
  args = [configured_port argc argv] /\
  (ntohs host (sin6_port a) = configured_port argc argv <->
   0 <= configured_port argc argv < 2 ^ 16).
Proof.
  intros Hm Hb. apply bind_in_run in Hb as (_ & _ & Hp). split.
  - apply run_event in Hm as [Hm|(sfd & h & _ & Hm)].
    + boot_cases; cbn [In] in Hm; repeat destruct Hm as [Hm|Hm];
        try discriminate; try contradiction; injection Hm as <-; reflexivity.
    + apply iteration_events in Hm as (_ & Hm & _). discriminate.
  - rewrite Hp. split; intros H.
    + rewrite <- H. apply Z.mod_pos_bound. lia.
    + apply Z.mod_small. exact H.
Qed.

(** X5.  Once [listen] has succeeded the server gets through any number of
    turns: for every [k] there is a step, at most 6 + 7 k steps from the
    start, at which the record is the start-up followed by exactly [k]
    complete turns and the process is running. *)
Theorem serves_without_bound (fuel0 : nat) (fd n r : Z) (k : nat) :
  In (Called (sys_listen fd n) r) (fst (run fuel0 w [] (main host argc argv))) ->
  0 <= r ->
  exists fuel sfd r4 r5 done,
    (fuel <= 6 + 7 * k)%nat /\
    run fuel w [] (main host argc argv) =
    (bootstrap_calls host argc argv sfd r4 r5 ++
     startup_message (configured_port argc argv) :: done, Running) /\
    turns sfd k done.
Proof.
  intros H Hr. apply listening in H as (_ & sfd & Hsome); [|exact Hr].
  destruct (boot_some host w argc argv sfd Hsome) as (_ & _ & _ & r4 & r5 & _ & _ & Htr).
  destruct (reach_loop_head w sfd k (fst (boot host w argc argv))) as (m & Hm & Hrun).
  destruct (loop_head_turns w sfd k (fst (boot host w argc argv))) as (d & Hd & Hturns).
  exists (List.length (fst (boot host w argc argv)) + m)%nat, sfd, r4, r5, d.
  split; [rewrite Htr; cbn; lia|]. split; [|exact Hturns].
  rewrite (run_after_boot sfd m Hsome).
  rewrite <- (Nat.add_0_r m), Hrun, Hd, Htr, <- List.app_assoc. reflexivity.
Qed.

(** X6.  The shape of every record: once the start-up message is printed,
    the record is the five start-up calls, the message, some number of
    complete turns of the serve loop and the beginning of one more turn,
    and nothing else. *)
Theorem record_shape (fuel : nat) :
  existsb is_startup_message (fst (run fuel w [] (main host argc argv))) = true ->
  exists sfd r4 r5 k done t m,
    fst (run fuel w [] (main host argc argv)) =
    bootstrap_calls host argc argv sfd r4 r5 ++
    startup_message (configured_port argc argv) :: done ++ firstn m t /\
    turns sfd k done /\ turn sfd t.
Proof.
  intros H.
  assert (Hb : (6 <= fuel)%nat /\ exists sfd, snd (boot host w argc argv) = Some sfd).
  { destruct (run_boot_part host w argc argv fuel) as (l & Hl & Hnone).
    rewrite Hl, existsb_app in H. apply orb_true_iff in H as [H|H].
    - now apply boot_message.
    - rewrite existsb_none in H; [discriminate|]. intros x Hx. now apply Hnone. }
  destruct Hb as (Hfuel & sfd & Hsome).
  destruct (boot_some host w argc argv sfd Hsome) as (_ & _ & _ & r4 & r5 & _ & _ & Htr).
  exists sfd, r4, r5.
  destruct (main_cases host w argc argv fuel)
    as [Hle Hrun|Hgt Hnone Hrun|s k n Hs h ev Hn Hm Hj Hrun].
  - rewrite Htr in Hle. cbn in Hle. assert (fuel = 6%nat) as -> by lia.
    exists O, [], (iteration w sfd []), O.
    rewrite Hrun, Htr. cbn. repeat split; [constructor|apply iteration_turn].
  - congruence.
  - assert (s = sfd) as -> by congruence.
    destruct (loop_head_turns w sfd k (fst (boot host w argc argv))) as (d & Hd & Hturns).
    exists k, d, ev, (fuel - n)%nat.
    rewrite Hrun. cbn [fst]. subst h. rewrite Hd, Htr, <- !List.app_assoc.
    repeat split; [exact Hturns|apply iteration_turn].
Qed.

(** X7.  Nothing in the start-up is retried or repeated: in every run,
    failing or not and however long, the start-up calls recorded are an
    initial part of the same five calls in the order of the source, each
    made once, and the start-up message is printed at most once. *)
Theorem start_up_calls_once (fuel : nat) :
  (exists j sfd r2 r3 r4 r5,
     filter is_boot_call (fst (run fuel w [] (main host argc argv))) =
     firstn j (start_up_calls host argc argv sfd r2 r3 r4 r5)) /\
  (List.length (filter is_startup_message
                  (fst (run fuel w [] (main host argc argv)))) <= 1)%nat.
Proof.
  destruct (run_boot_part host w argc argv fuel) as (l & -> & Hnone).
  rewrite !filter_app.
  rewrite (filter_none is_boot_call l) by (intros x Hx; now apply Hnone).
  rewrite (filter_none is_startup_message l) by (intros x Hx; now apply Hnone).
  rewrite !List.app_nil_r.
  split.
  - boot_cases; to_props;
      destruct fuel as [|[|[|[|[|[|[|fuel]]]]]]]; cbn [firstn filter is_boot_call];
      solve [ (exists 0%nat + exists 1%nat + exists 2%nat + exists 3%nat
               + exists 4%nat + exists 5%nat);
              do 5 eexists; cbn [firstn]; reflexivity ].
  - boot_cases;
      destruct fuel as [|[|[|[|[|[|[|fuel]]]]]]]; cbn; lia.
  Unshelve. all: exact 0.
Qed.

(** X8.  The process exits only from the start-up code: a run that has
    exited has status 1, holds at most six records of which the last two
    are a call and its report, has never called [accept] nor printed the
    start-up message, and records nothing more afterwards. *)
Theorem exit_only_before_serving (fuel : nat) (code : Z) :
  snd (run fuel w [] (main host argc argv)) = Exited code ->
  let tr := fst (run fuel w [] (main host argc argv)) in
  code = EXIT_FAILURE /\
  (exists pre c r, tr = pre ++ [Called c r; Printed (out_perror (failure_message c))]) /\
  (List.length tr <= 6)%nat /\
  existsb is_accept tr = false /\
  existsb is_startup_message tr = false /\
  forall more, run (fuel + more) w [] (main host argc argv) = (tr, Exited code).
Proof.
  intros H tr. subst tr.
  destruct (main_cases host w argc argv fuel)
    as [Hle Hrun|Hgt Hnone Hrun|s k n Hs h ev Hn Hm Hj Hrun];
    rewrite Hrun in H |- *; cbn [fst snd] in H |- *; try discriminate.
  injection H as <-.
  destruct (boot_exit Hnone) as (Hlen & Hacc & Hlast).
  repeat split; auto.
  - now apply boot_none.
  - intros more.
    destruct (main_cases host w argc argv (fuel + more))
      as [Hle' Hrun'|Hgt' Hnone' Hrun'|s k n Hs h ev Hn Hm Hj Hrun'].
    + lia.
    + exact Hrun'.
    + congruence.
Qed.

(** X9.  The start-up gets through whenever [socket] answers a positive
    descriptor and no start-up call on it fails: after six steps the
    record is the five calls and the start-up message, and the process is
    running. *)
Theorem start_up_succeeds :
  let sfd := w [] (sys_socket AF_INET6 SOCK_STREAM 0) in
  0 < sfd ->
  (forall h c, fd_of c = Some sfd -> is_boot_failure (Called c (w h c)) = false) ->
  exists r4 r5,
    0 <= r4 /\ 0 <= r5 /\
    run 6 w [] (main host argc argv) =
    (bootstrap_calls host argc argv sfd r4 r5 ++
     [startup_message (configured_port argc argv)], Running).
Proof.
  intros sfd Hpos Hok.
  assert (Hsome : snd (boot host w argc argv) = Some sfd).
  { subst sfd. boot_cases; try reflexivity; exfalso;
      try (to_props; lia);
      match goal with
      | E : (w ?h ?c =? 0) = false |- _ =>
          let X := fresh in
          pose proof (Hok h c eq_refl) as X; cbn [is_boot_failure] in X;
          rewrite E in X; discriminate
      | E : (w ?h ?c <? 0) = true |- _ =>
          let X := fresh in
          pose proof (Hok h c eq_refl) as X; cbn [is_boot_failure] in X;
          rewrite E in X; discriminate
      end. }
  destruct (boot_some host w argc argv sfd Hsome) as (_ & _ & _ & r4 & r5 & H4 & H5 & Htr).
  exists r4, r5. split; [exact H4|]. split; [exact H5|].
  pose proof (run_after_boot sfd O Hsome) as Hrun.
  rewrite Htr in Hrun. exact Hrun.
Qed.

(** X10.  The descriptors the serve loop works on: every [accept] is
    called on the descriptor [socket] returned, and every [write] and
    [close] on a descriptor that is not negative and that an [accept] in
    the record returned. *)
Theorem descriptors_from_accept (fuel : nat) (e : event) :
  let sfd := w [] (sys_socket AF_INET6 SOCK_STREAM 0) in
  let tr := fst (run fuel w [] (main host argc argv)) in
  In e tr ->
  match e with
  | Called (sys_accept fd) _ => fd = sfd
  | Called (sys_write fd _ _) _ | Called (sys_close fd) _ =>
      0 <= fd /\ In (Called (sys_accept sfd) fd) tr
  | _ => True
  end.
Proof.
  intros sfd tr He. subst tr.
  destruct (main_cases host w argc argv fuel)
    as [Hle Hrun|Hgt Hnone Hrun|s k n Hs h ev Hn Hm Hj Hrun];
    rewrite Hrun in He |- *; cbn [fst] in He |- *.
  - apply in_firstn, boot_events in He.
    destruct e as [[] r|o]; cbn in He |- *; auto; destruct He; discriminate.
  - apply boot_events in He.
    destruct e as [[] r|o]; cbn in He |- *; auto; destruct He; discriminate.
  - destruct (boot_some host w argc argv s Hs) as (Hsfd & _). fold sfd in Hsfd. subst s.
    apply (loop_head_turn_descriptors w sfd k (fst (boot host w argc argv))
             (fuel - n)); [|exact He].
    intros x Hx. apply boot_events in Hx.
    destruct x as [[] r|o]; cbn in Hx |- *; auto; destruct Hx; discriminate.
Qed.

End Further.

(** ** More runs against the operating systems above *)

Lemma start_up_failure_reported_witness :
  let p := main LittleEndian 1 ["fly-test"] in
  let pre := fst (run 3 busy_port [] p) in
  let c := sys_bind 3 (bind_address LittleEndian 1 ["fly-test"]) sizeof_sockaddr_in6 in
  fst (run 4 busy_port [] p) = pre ++ [Called c (-1)] /\
  run 5 busy_port [] p =
    (pre ++ [Called c (-1); Printed (out_perror "bind failed")], Running) /\
  run 6 busy_port [] p =
    (pre ++ [Called c (-1); Printed (out_perror "bind failed")], Exited 1).
Proof.
  intros p pre c.
  assert (H : fst (run 4 busy_port [] p) = pre ++ [Called c (-1)])
    by (vm_compute; reflexivity).
  assert (Hc : forall d t q, c <> sys_socket d t q) by (intros d t q; discriminate).
  split; [exact H|].
  destruct (start_up_failure_reported LittleEndian busy_port 1 ["fly-test"] 4 pre c (-1)
              H eq_refl Hc) as [H1 H2].
  split; [exact H1|exact (H2 O)].
Defined.

Lemma descriptor_zero_rejected_witness :
  stdin_closed [] (sys_socket AF_INET6 SOCK_STREAM 0) = 0 /\
  run 3 stdin_closed [] (main LittleEndian 1 ["fly-test"]) =
  ([Called (sys_socket AF_INET6 SOCK_STREAM 0) 0;
    Printed (out_perror "socket failed")],
   Exited EXIT_FAILURE).
Proof.
  split; [reflexivity|].
  apply (descriptor_zero_rejected LittleEndian stdin_closed 1 ["fly-test"] 3);
    [reflexivity|lia].
Defined.

Lemma socket_failure_not_detected_witness :
  let p := main LittleEndian 1 ["fly-test"] in
  no_sockets [] (sys_socket AF_INET6 SOCK_STREAM 0) < 0 /\
  ~ In (Printed (out_perror "socket failed")) (fst (run 9 no_sockets [] p)) /\
  run 9 no_sockets [] p =
  ([Called (sys_socket AF_INET6 SOCK_STREAM 0) (-1);
    Called (sys_setsockopt (-1) SOL_SOCKET SO_REUSEADDR 1 sizeof_int) (-1);
    Printed (out_perror "setsockopt")],
   Exited EXIT_FAILURE).
Proof.
  intros p.
  assert (H : no_sockets [] (sys_socket AF_INET6 SOCK_STREAM 0) < 0) by reflexivity.
  split; [exact H|].
  destruct (socket_failure_not_detected LittleEndian no_sockets 1 ["fly-test"] 9 H)
    as [H1 H2].
  split; [exact H1|].
  apply H2; [exact no_sockets_ebadf|lia].
Defined.

Lemma announced_port_witness :
  let argv := ["fly-test"; "65536"] in
  let p := main LittleEndian 2 argv in
  let a := bind_address LittleEndian 2 argv in
  In (Printed (out_printf "Server listening on port %d\n" [65536]))
     (fst (run 6 calm [] p)) /\
  In (Called (sys_bind 3 a sizeof_sockaddr_in6) 0) (fst (run 6 calm [] p)) /\
  [65536] = [configured_port 2 argv] /\
  (ntohs LittleEndian (sin6_port a) = configured_port 2 argv <->
   0 <= configured_port 2 argv < 2 ^ 16).
Proof.
  intros argv p a.
  assert (Hm : In (Printed (out_printf "Server listening on port %d\n" [65536]))
                  (fst (run 6 calm [] p)))
    by (vm_compute; repeat first [left; reflexivity | right]).
  assert (Hb : In (Called (sys_bind 3 a sizeof_sockaddr_in6) 0) (fst (run 6 calm [] p)))
    by (vm_compute; repeat first [left; reflexivity | right]).
  split; [exact Hm|]. split; [exact Hb|].
  exact (announced_port LittleEndian calm 2 argv 6 [65536] 3 sizeof_sockaddr_in6 0 a Hm Hb).
Defined.

Lemma serves_without_bound_witness :
  let p := main LittleEndian 1 ["fly-test"] in
  In (Called (sys_listen 3 3) 0) (fst (run 5 calm [] p)) /\
  exists fuel sfd r4 r5 done,
    (fuel <= 6 + 7 * 2)%nat /\
    run fuel calm [] p =
    (bootstrap_calls LittleEndian 1 ["fly-test"] sfd r4 r5 ++
     startup_message (configured_port 1 ["fly-test"]) :: done, Running) /\
    turns sfd 2 done.
Proof.
  intros p.
  assert (H : In (Called (sys_listen 3 3) 0) (fst (run 5 calm [] p)))
    by (vm_compute; repeat first [left; reflexivity | right]).
  split; [exact H|].
  apply (serves_without_bound LittleEndian calm 1 ["fly-test"] 5 3 3 0 2 H). lia.
Defined.

Lemma record_shape_witness :
  let p := main LittleEndian 1 ["fly-test"] in
  existsb is_startup_message (fst (run 16 calm [] p)) = true /\
  exists sfd r4 r5 k done t m,
    fst (run 16 calm [] p) =
    bootstrap_calls LittleEndian 1 ["fly-test"] sfd r4 r5 ++
    startup_message (configured_port 1 ["fly-test"]) :: done ++ firstn m t /\
    turns sfd k done /\ turn sfd t.
Proof.
  intros p.
  assert (H : existsb is_startup_message (fst (run 16 calm [] p)) = true)
    by (vm_compute; reflexivity).
  split; [exact H|].
  exact (record_shape LittleEndian calm 1 ["fly-test"] 16 H).
Defined.

Lemma exit_only_before_serving_witness :
  let p := main LittleEndian 1 ["fly-test"] in
  let tr := fst (run 7 busy_port [] p) in
  snd (run 7 busy_port [] p) = Exited 1 /\
  (exists pre c r, tr = pre ++ [Called c r; Printed (out_perror (failure_message c))]) /\
  (List.length tr <= 6)%nat /\
  existsb is_accept tr = false /\
  forall more, run (7 + more) busy_port [] p = (tr, Exited 1).
Proof.
  intros p tr.
  assert (H : snd (run 7 busy_port [] p) = Exited 1) by (vm_compute; reflexivity).
  split; [exact H|].
  destruct (exit_only_before_serving LittleEndian busy_port 1 ["fly-test"] 7 1 H)
    as (_ & H1 & H2 & H3 & _ & H4).
  split; [exact H1|]. split; [exact H2|]. split; [exact H3|exact H4].
Defined.

Lemma start_up_succeeds_witness :
  0 < calm [] (sys_socket AF_INET6 SOCK_STREAM 0) /\
  exists r4 r5,
    0 <= r4 /\ 0 <= r5 /\
    run 6 calm [] (main LittleEndian 1 ["fly-test"]) =
    (bootstrap_calls LittleEndian 1 ["fly-test"] 3 r4 r5 ++
     [startup_message (configured_port 1 ["fly-test"])], Running).
Proof.
  assert (H : 0 < calm [] (sys_socket AF_INET6 SOCK_STREAM 0)) by reflexivity.
  split; [exact H|].
  apply (start_up_succeeds LittleEndian calm 1 ["fly-test"] H).
  intros h c Hfd. destruct c; cbn in Hfd; try discriminate;
    injection Hfd as ->; reflexivity.
Defined.

Lemma descriptors_from_accept_witness :
  let p := main LittleEndian 1 ["fly-test"] in
  In (Called (sys_close 4) 0) (fst (run 12 calm [] p)) /\
  0 <= 4 /\
  In (Called (sys_accept (calm [] (sys_socket AF_INET6 SOCK_STREAM 0))) 4)
     (fst (run 12 calm [] p)).
Proof.
  intros p.
  assert (H : In (Called (sys_close 4) 0) (fst (run 12 calm [] p)))
    by (vm_compute; repeat first [left; reflexivity | right]).
  split; [exact H|].
  exact (descriptors_from_accept LittleEndian calm 1 ["fly-test"] 12
           (Called (sys_close 4) 0) H).
Defined.
